(** * Weather service: normalisation, fallback and display formatting

    A shallow embedding of [working_weather_service.py]
    (classes [WorkingWeatherService] and [WeatherDataProcessor]) and the
    properties of its aggregation and formatting logic.

    Conventions of the embedding.
    - A decoded JSON document, and every Python object built from one, is a
      [value].  Dictionaries are association lists in insertion order; the
      first binding of a key is the binding of the dictionary.
    - Python numbers ([int], [float]) are exact rationals ([Q]); [bool]
      takes part in arithmetic as 0 and 1, as it does in Python.  Binary
      floating point rounding is not modelled.
    - A raised exception is the [Raise] outcome of the [res] monad; a
      [try ... except Exception] block is [try_except].
    - Network access goes through the [io] monad, which records every
      request issued on the session.
    - Library and operating-system services whose behaviour is not fixed by
      the repository (clock, time zone, hash order of sets, [str()] of an
      object) are the fields of a [platform]. *)

From Stdlib Require Import List String Ascii ZArith QArith Qround Qabs Lia Lqa Bool.
From Stdlib Require Import Permutation DecimalString.
Import ListNotations.

Set Implicit Arguments.
Set Warnings "-register-all".

(** * Part I: the embedding of the source *)

(** ** Python objects *)

Inductive value : Type :=
| VNone
| VBool (b : bool)
| VNum (q : Q)
| VStr (s : string)
| VList (l : list value)
| VDict (kv : list (string * value)).

Inductive exn : Type :=
| TypeError | KeyError | IndexError | AttributeError | ValueError
| ZeroDivisionError | HTTPError | ConnectionError | JSONDecodeError.

Inductive res (A : Type) : Type :=
| Ok (a : A)
| Raise (e : exn).
Arguments Raise {A} e.

Definition rbind {A B} (m : res A) (f : A -> res B) : res B :=
  match m with
  | Ok a => f a
  | Raise e => Raise e
  end.

Declare Scope res_scope.
Delimit Scope res_scope with res.
Notation "x <- m ;; k" := (rbind m (fun x => k))
  (at level 61, m at next level, right associativity) : res_scope.

Definition try_except {A} (m : res A) (handler : A) : A :=
  match m with
  | Ok a => a
  | Raise _ => handler
  end.

Fixpoint rmap {A B} (f : A -> res B) (l : list A) : res (list B) :=
  match l with
  | [] => Ok []
  | x :: xs =>
      match f x with
      | Ok y => match rmap f xs with Ok ys => Ok (y :: ys) | Raise e => Raise e end
      | Raise e => Raise e
      end
  end.

(** Truth value of an object ([if x:], [if not x:]). *)
Definition truthy (v : value) : bool :=
  match v with
  | VNone => false
  | VBool b => b
  | VNum q => negb (Qeq_bool q 0)
  | VStr s => negb (String.eqb s EmptyString)
  | VList l => match l with [] => false | _ => true end
  | VDict kv => match kv with [] => false | _ => true end
  end.

Fixpoint assoc (k : string) (kv : list (string * value)) : option value :=
  match kv with
  | [] => None
  | (k', v) :: rest => if String.eqb k k' then Some v else assoc k rest
  end.

(** [d.get(k, dflt)]: only dictionaries have the method. *)
Definition dict_get (d : value) (k : string) (dflt : value) : res value :=
  match d with
  | VDict kv => Ok (match assoc k kv with Some v => v | None => dflt end)
  | _ => Raise AttributeError
  end.

(** [d[k]] for a string key. *)
Definition getitem (d : value) (k : string) : res value :=
  match d with
  | VDict kv => match assoc k kv with Some v => Ok v | None => Raise KeyError end
  | _ => Raise TypeError
  end.

(** [x[0]]. *)
Definition getitem0 (x : value) : res value :=
  match x with
  | VList (y :: _) => Ok y
  | VList [] => Raise IndexError
  | VStr (String c _) => Ok (VStr (String c EmptyString))
  | VStr EmptyString => Raise IndexError
  | VDict _ => Raise KeyError
  | _ => Raise TypeError
  end.

(** [d[k] = v]: an existing key keeps its position, a new key goes last. *)
Fixpoint assoc_set (k : string) (v : value) (kv : list (string * value))
  : list (string * value) :=
  match kv with
  | [] => [(k, v)]
  | (k', v') :: rest =>
      if String.eqb k k' then (k, v) :: rest else (k', v') :: assoc_set k v rest
  end.

Definition setitem (d : value) (k : string) (v : value) : res value :=
  match d with
  | VDict kv => Ok (VDict (assoc_set k v kv))
  | _ => Raise TypeError
  end.

(** ** Numbers *)

Local Open Scope Q_scope.

Definition as_num (v : value) : res Q :=
  match v with
  | VNum q => Ok q
  | VBool b => Ok (if b then 1 else 0)
  | _ => Raise TypeError
  end.

(** [round(x)]: nearest integer, a tie goes to the even neighbour. *)
Definition py_round (q : Q) : Z :=
  let f := Qfloor q in
  match Qcompare (q - inject_Z f) (1 # 2) with
  | Lt => f
  | Gt => (f + 1)%Z
  | Eq => if Z.even f then f else (f + 1)%Z
  end.

(** [round(x, 1)]. *)
Definition py_round1 (q : Q) : Q := Qred (py_round (q * 10) # 10).

Definition round_value (v : value) : res Z :=
  (q <- as_num v ;; Ok (py_round q))%res.

Definition round1_value (v : value) : res Q :=
  (q <- as_num v ;; Ok (py_round1 q))%res.

(** ** Strings *)

Local Open Scope string_scope.

Definition lower_ascii (c : ascii) : ascii :=
  let n := nat_of_ascii c in
  if ((65 <=? n) && (n <=? 90))%nat then ascii_of_nat (n + 32) else c.

(** [s.lower()], on the letters A to Z; other code points are kept. *)
Fixpoint lower (s : string) : string :=
  match s with
  | EmptyString => EmptyString
  | String c rest => String (lower_ascii c) (lower rest)
  end.

(** [needle in hay] for two strings. *)
Fixpoint str_in (needle hay : string) : bool :=
  String.prefix needle hay ||
  match hay with
  | EmptyString => false
  | String _ rest => str_in needle rest
  end.

(** ** WeatherDataProcessor: icons *)

(** The literal table of [get_weather_icon], in source order (a Python
    dictionary iterates in insertion order).  The icon strings are the
    characters of the source file. *)
Definition icon_map : list (string * string) :=
  [ ("clear", "â˜€ï¸");
    ("sunny", "â˜€ï¸");
    ("partly cloudy", "â›…");
    ("few clouds", "ğŸŒ¤ï¸");
    ("scattered clouds", "â›…");
    ("broken clouds", "â˜ï¸");
    ("overcast", "â˜ï¸");
    ("cloudy", "â˜ï¸");
    ("light rain", "ğŸŒ¦ï¸");
    ("moderate rain", "ğŸŒ§ï¸");
    ("heavy rain", "â›ˆï¸");
    ("rain", "ğŸŒ§ï¸");
    ("thunderstorm", "â›ˆï¸");
    ("snow", "â„ï¸");
    ("sleet", "ğŸŒ¨ï¸");
    ("mist", "ğŸŒ«ï¸");
    ("fog", "ğŸŒ«ï¸");
    ("haze", "ğŸŒ«ï¸");
    ("drizzle", "ğŸŒ¦ï¸");
    ("shower", "ğŸŒ¦ï¸") ].

Definition default_icon : string := "ğŸŒ¤ï¸".

(** The loop [for key, icon in icon_map.items(): if key in description_lower:
    return icon]. *)
Fixpoint icon_loop (items : list (string * string)) (description_lower : string)
  : option string :=
  match items with
  | [] => None
  | (key, icon) :: rest =>
      if str_in key description_lower then Some icon
      else icon_loop rest description_lower
  end.

Definition get_weather_icon (description : string) : string :=
  let description_lower := lower description in
  match icon_loop icon_map description_lower with
  | Some icon => icon
  | None => default_icon
  end.

(** The icon the table gives to a keyword. *)
Fixpoint table_icon (key : string) (items : list (string * string)) : option string :=
  match items with
  | [] => None
  | (k, icon) :: rest => if String.eqb key k then Some icon else table_icon key rest
  end.

Definition _get_alert_icon (severity : string) : string :=
  let severity_lower := lower severity in
  if str_in "severe" severity_lower || str_in "extreme" severity_lower then "ğŸš¨"
  else if str_in "moderate" severity_lower || str_in "minor" severity_lower then "âš ï¸"
  else "âš¡".

Definition is_space (c : ascii) : bool :=
  let n := nat_of_ascii c in
  (((9 <=? n) && (n <=? 13)) || ((28 <=? n) && (n <=? 32)))%nat.

Fixpoint lstrip (s : string) : string :=
  match s with
  | String c rest => if is_space c then lstrip rest else s
  | EmptyString => EmptyString
  end.

Fixpoint rstrip (s : string) : string :=
  match s with
  | EmptyString => EmptyString
  | String c rest =>
      let rest' := rstrip rest in
      if is_space c && String.eqb rest' EmptyString then EmptyString
      else String c rest'
  end.

(** [s.strip()]. *)
Definition strip (s : string) : string := rstrip (lstrip s).

(** [s.split(sep)] for a separator of one character; never empty. *)
Fixpoint split_on (sep : ascii) (s : string) : list string :=
  match s with
  | EmptyString => [EmptyString]
  | String c rest =>
      if Ascii.eqb c sep then EmptyString :: split_on sep rest
      else match split_on sep rest with
           | [] => [String c EmptyString]
           | h :: t => String c h :: t
           end
  end.

Fixpoint repeat_string (s : string) (n : nat) : string :=
  match n with
  | O => EmptyString
  | S k => s ++ repeat_string s k
  end.

Fixpoint chars (s : string) : list value :=
  match s with
  | EmptyString => []
  | String c rest => VStr (String c EmptyString) :: chars rest
  end.

Definition as_str (v : value) : res string :=
  match v with
  | VStr s => Ok s
  | _ => Raise AttributeError
  end.

(** [for x in v]: the items a loop over [v] visits. *)
Definition iterate (v : value) : res (list value) :=
  match v with
  | VList l => Ok l
  | VStr s => Ok (chars s)
  | VDict kv => Ok (map (fun p => VStr (fst p)) kv)
  | _ => Raise TypeError
  end.

(** [l[:n]] on a Python list. *)
Definition list_slice_to {A} (n : Z) (l : list A) : list A :=
  if (0 <=? n)%Z then firstn (Z.to_nat n) l
  else firstn (List.length l - Z.to_nat (- n)) l.

(** [for x in v[:n]]. *)
Definition iterate_slice_to (n : Z) (v : value) : res (list value) :=
  match v with
  | VList l => Ok (list_slice_to n l)
  | VStr s => Ok (list_slice_to n (chars s))
  | _ => Raise TypeError
  end.

(** [v * n] for a literal [int] [n]: numbers multiply, sequences repeat. *)
Definition mul_int (v : value) (n : nat) : res value :=
  match v with
  | VNum q => Ok (VNum (q * inject_Z (Z.of_nat n)))
  | VBool b => Ok (VNum ((if b then 1 else 0) * inject_Z (Z.of_nat n)))
  | VStr s => Ok (VStr (repeat_string s n))
  | VList l => Ok (VList (List.concat (repeat l n)))
  | _ => Raise TypeError
  end.

(** ** Hashable objects, sets and [max(..., key=...)] *)

Definition hashable (v : value) : bool :=
  match v with
  | VList _ | VDict _ => false
  | _ => true
  end.

(** [a == b] on hashable objects: numbers (and booleans) compare by value,
    strings by content, [None] with itself. *)
Definition hash_eq (a b : value) : bool :=
  match as_num a, as_num b with
  | Ok p, Ok q => Qeq_bool p q
  | _, _ =>
      match a, b with
      | VNone, VNone => true
      | VStr s, VStr t => String.eqb s t
      | _, _ => false
      end
  end.

(** [l.count(x)]. *)
Definition count (x : value) (l : list value) : nat :=
  List.length (filter (hash_eq x) l).

Definition mem (x : value) (l : list value) : bool := existsb (hash_eq x) l.

Fixpoint nodup_eq (l : list value) : bool :=
  match l with
  | [] => true
  | x :: rest => negb (mem x rest) && nodup_eq rest
  end.

(** [s] lists the elements of [set(l)] in some order: no element twice,
    every element equal to one of [l], every element of [l] represented. *)
Definition is_set_of (l s : list value) : bool :=
  nodup_eq s && forallb (fun x => mem x l) s && forallb (fun x => mem x s) l.

(** The loop of [max(iterable, key=key)]: a later item replaces the best one
    only when its key is strictly greater. *)
Fixpoint max_loop (key : value -> nat) (best : value) (rest : list value) : value :=
  match rest with
  | [] => best
  | x :: rest' => max_loop key (if (key best <? key x)%nat then x else best) rest'
  end.

Definition max_key (key : value -> nat) (items : list value) : res value :=
  match items with
  | [] => Raise ValueError
  | x :: rest => Ok (max_loop key x rest)
  end.

(** [min(l)] and [max(l)] on numbers: the first least (greatest) item. *)
Fixpoint min_loop (best : Q) (rest : list Q) : Q :=
  match rest with
  | [] => best
  | x :: rest' => min_loop (if Qlt_le_dec x best then x else best) rest'
  end.

Fixpoint maxq_loop (best : Q) (rest : list Q) : Q :=
  match rest with
  | [] => best
  | x :: rest' => maxq_loop (if Qlt_le_dec best x then x else best) rest'
  end.

Definition py_min (l : list Q) : res Q :=
  match l with
  | [] => Raise ValueError
  | x :: rest => Ok (min_loop x rest)
  end.

Definition py_max (l : list Q) : res Q :=
  match l with
  | [] => Raise ValueError
  | x :: rest => Ok (maxq_loop x rest)
  end.

(** [sum(l)]. *)
Definition py_sum (l : list Q) : Q := fold_left Qplus l 0.

(** ** Requests and the network *)

Record request : Type := mk_request {
  url : string;
  params : list (string * value);
  timeout : Z
}.

(** What came back for a request: a status code and, when the body is a JSON
    document, the decoded body. *)
Record response : Type := mk_response {
  status_code : Z;
  body : option value
}.

(** A computation that may issue requests: it extends the log of the requests
    issued so far and ends with a value or an exception. *)
Definition io (A : Type) : Type := list request -> res A * list request.

Definition ret {A} (a : A) : io A := fun log => (Ok a, log).

Definition bind {A B} (m : io A) (f : A -> io B) : io B :=
  fun log =>
    match m log with
    | (Ok a, log') => f a log'
    | (Raise e, log') => (Raise e, log')
    end.

Definition lift {A} (r : res A) : io A := fun log => (r, log).

(** [try: m  except Exception: return handler]. *)
Definition try_io {A} (m : io A) (handler : A) : io A :=
  fun log =>
    match m log with
    | (Ok a, log') => (Ok a, log')
    | (Raise _, log') => (Ok handler, log')
    end.

Declare Scope io_scope.
Delimit Scope io_scope with io.
Notation "x <- m ;; k" := (bind m (fun x => k))
  (at level 61, m at next level, right associativity) : io_scope.

(** A point in local time, as [datetime.fromtimestamp] returns it. *)
Record datetime : Type := mk_datetime {
  year : Z;
  month : Z;
  day : Z;
  hour : Z;
  minute : Z;
  weekday : nat   (* 0 is Monday *)
}.

(** ** Platform services *)

Record platform : Type := mk_platform {
  (** the answer of the network to a request, given the requests issued
      before it; [None] is a transport failure (time-out, DNS, refused) *)
  network : list request -> request -> option response;
  (** [int(datetime.now().timestamp())] *)
  now_timestamp : Z;
  (** [datetime.now().isoformat()] *)
  now_isoformat : string;
  (** [datetime.now().strftime('%Y-%m-%d %H:%M:%S')] *)
  now_display : string;
  (** [(datetime.now() + timedelta(days=n)).strftime('%Y-%m-%d')] *)
  date_after : Z -> res string;
  (** [int(datetime.fromisoformat(x).timestamp())] *)
  isoformat_timestamp : value -> res Z;
  (** [int(datetime.combine(datetime.now().date(),
      datetime.strptime(x, '%H:%M:%S').time()).timestamp())] *)
  time_of_day_timestamp : value -> res Z;
  (** [datetime.fromtimestamp(x)] in the local time zone *)
  fromtimestamp : value -> res datetime;
  (** [datetime.strptime(x, '%Y-%m-%d')] *)
  strptime_date : string -> res datetime;
  (** [str(x)], as an f-string inserts it *)
  py_str : value -> string;
  (** the order in which [set(l)] is iterated (it depends on the hashes) *)
  set_iter : list value -> list value;
  set_iter_spec :
    forall l, forallb hashable l = true -> is_set_of l (set_iter l) = true
}.

(** Decimal digits, for [strftime]. *)
Definition digit (n : Z) : ascii := ascii_of_nat (48 + Z.to_nat (n mod 10)).

Definition pad2 (n : Z) : string :=
  String (digit (n / 10)) (String (digit n) EmptyString).

Definition pad4 (n : Z) : string :=
  String (digit (n / 1000)) (String (digit (n / 100)) (pad2 n)).

(** [t.strftime('%Y-%m-%d')] *)
Definition strftime_date (t : datetime) : string :=
  pad4 (year t) ++ "-" ++ pad2 (month t) ++ "-" ++ pad2 (day t).

(** [t.strftime('%H:%M')] *)
Definition strftime_hm (t : datetime) : string :=
  pad2 (hour t) ++ ":" ++ pad2 (minute t).

(** [t.strftime('%A')] *)
Definition strftime_day_name (t : datetime) : string :=
  nth (weekday t)
      ["Monday"; "Tuesday"; "Wednesday"; "Thursday"; "Friday"; "Saturday"; "Sunday"]
      "Sunday".

(** ** WorkingWeatherService *)

Section Service.

Variable pf : platform.

(** The two keys given to [__init__]. *)
Variable visual_crossing_key : string.
Variable openweather_key : string.

Definition vc_base_url : string :=
  "https://weather.visualcrossing.com/VisualCrossingWebServices/rest/services/timeline".
Definition owm_base_url : string := "https://api.openweathermap.org/data/2.5".
Definition owm_geocoding_url : string := "http://api.openweathermap.org/geo/1.0".

(** [self.session.get(url, params=params, timeout=t)] *)
Definition session_get (req : request) : io response :=
  fun log =>
    (match network pf log req with
     | Some r => Ok r
     | None => Raise ConnectionError
     end, (log ++ [req])%list).

(** [response.raise_for_status()] *)
Definition raise_for_status (r : response) : res unit :=
  if ((400 <=? status_code r) && (status_code r <? 600))%Z
  then Raise HTTPError else Ok tt.

(** [response.json()] *)
Definition json (r : response) : res value :=
  match body r with
  | Some v => Ok v
  | None => Raise JSONDecodeError
  end.

(** The three statements every provider call starts with:
    [response = self.session.get(...)], [response.raise_for_status()],
    [data = response.json()]. *)
Definition fetch_json (req : request) : io value :=
  (response <- session_get req ;;
   _ <- lift (raise_for_status response) ;;
   lift (json response))%io.

Definition vc_icon_map : list (string * string) :=
  [ ("clear-day", "01d"); ("clear-night", "01n");
    ("partly-cloudy-day", "02d"); ("partly-cloudy-night", "02n");
    ("cloudy", "03d"); ("fog", "50d"); ("wind", "50d"); ("rain", "10d");
    ("sleet", "13d"); ("snow", "13d"); ("hail", "13d") ].

(** [icon_map.get(vc_icon, '01d')]: a key that cannot be hashed raises. *)
Definition _get_weather_icon_code (vc_icon : value) : res string :=
  match vc_icon with
  | VStr s => Ok (match table_icon s vc_icon_map with Some c => c | None => "01d" end)
  | VList _ | VDict _ => Raise TypeError
  | _ => Ok "01d"
  end.

Definition _parse_time_to_timestamp (time_str : value) : Z :=
  try_except
    (if truthy time_str then time_of_day_timestamp pf time_str
     else Ok (now_timestamp pf))
    (now_timestamp pf).

Definition unit_group (units : string) : string :=
  if String.eqb units "metric" then "metric" else "us".

Definition vc_current_request (city units : string) : request :=
  {| url := vc_base_url ++ "/" ++ city ++ "/today";
     params := [ ("key", VStr visual_crossing_key);
                 ("unitGroup", VStr (unit_group units));
                 ("include", VStr "current,days,alerts");
                 ("contentType", VStr "json") ];
     timeout := 15 |}.

(** [location.split(',')[-1].strip() if ',' in location else ''] *)
Definition country_of (location : string) : string :=
  if str_in "," location then strip (last (split_on "," location) EmptyString)
  else EmptyString.

(** [current.get('pressure', 0) * 33.8639 if current.get('pressure') else 0] *)
Definition inhg_to_hpa (current : value) (key : string) : res value :=
  (cond <- dict_get current key VNone ;;
   if truthy cond then
     p <- dict_get current key (VNum 0) ;;
     q <- as_num p ;;
     Ok (VNum (q * (338639 # 10000)))
   else Ok (VNum 0))%res.

(** The dictionary built under [# Convert to standard format] in
    [_get_vc_current_weather]. *)
Definition vc_current_record (city : string) (data : value) : res value :=
  (current <- dict_get data "currentConditions" (VDict []) ;;
   location <- dict_get data "resolvedAddress" (VStr city) ;;
   loc <- as_str location ;;
   let name := hd EmptyString (split_on "," loc) in
   let country := country_of loc in
   temp <- dict_get current "temp" (VNum 0) ;;
   feels_like <- dict_get current "feelslike" (VNum 0) ;;
   humidity <- dict_get current "humidity" (VNum 0) ;;
   pressure <- inhg_to_hpa current "pressure" ;;
   t_min <- dict_get current "temp" (VNum 0) ;;
   q_min <- as_num t_min ;;
   t_max <- dict_get current "temp" (VNum 0) ;;
   q_max <- as_num t_max ;;
   description <- dict_get current "conditions" (VStr "") ;;
   vc_icon <- dict_get current "icon" (VStr "") ;;
   icon <- _get_weather_icon_code vc_icon ;;
   speed <- dict_get current "windspeed" (VNum 0) ;;
   deg <- dict_get current "winddir" (VNum 0) ;;
   vis <- dict_get current "visibility" (VNum 0) ;;
   visibility <- mul_int vis 1000 ;;
   sunrise <- dict_get current "sunrise" (VStr "") ;;
   sunset <- dict_get current "sunset" (VStr "") ;;
   alerts <- dict_get data "alerts" (VList []) ;;
   Ok (VDict
     [ ("source", VStr "visual_crossing");
       ("name", VStr name);
       ("country", VStr country);
       ("main", VDict
          [ ("temp", temp);
            ("feels_like", feels_like);
            ("humidity", humidity);
            ("pressure", pressure);
            ("temp_min", VNum (q_min - 2));
            ("temp_max", VNum (q_max + 2)) ]);
       ("weather", VList
          [ VDict [ ("description", description); ("icon", VStr icon) ] ]);
       ("wind", VDict [ ("speed", speed); ("deg", deg) ]);
       ("visibility", visibility);
       ("dt", VNum (inject_Z (now_timestamp pf)));
       ("sys", VDict
          [ ("country", VStr country);
            ("sunrise", VNum (inject_Z (_parse_time_to_timestamp sunrise)));
            ("sunset", VNum (inject_Z (_parse_time_to_timestamp sunset))) ]);
       ("alerts", alerts) ]))%res.

Definition _get_vc_current_weather (city units : string) : io value :=
  try_io
    (data <- fetch_json (vc_current_request city units) ;;
     lift (vc_current_record city data))%io
    VNone.

Definition owm_current_request (city units : string) : request :=
  {| url := owm_base_url ++ "/weather";
     params := [ ("q", VStr city);
                 ("appid", VStr openweather_key);
                 ("units", VStr units) ];
     timeout := 10 |}.

Definition _get_owm_current_weather (city units : string) : io value :=
  try_io
    (data <- fetch_json (owm_current_request city units) ;;
     lift (setitem data "source" (VStr "openweathermap")))%io
    VNone.

Definition get_current_weather (city units : string) : io value :=
  try_io
    (weather_data <- _get_vc_current_weather city units ;;
     if truthy weather_data then ret weather_data
     else _get_owm_current_weather city units)%io
    VNone.

(** One item of [forecast_list] in [_get_vc_forecast]. *)
Definition vc_forecast_item (day : value) : res value :=
  (datetime_field <- getitem day "datetime" ;;
   dt <- isoformat_timestamp pf datetime_field ;;
   temp <- dict_get day "temp" (VNum 0) ;;
   temp_min <- dict_get day "tempmin" (VNum 0) ;;
   temp_max <- dict_get day "tempmax" (VNum 0) ;;
   humidity <- dict_get day "humidity" (VNum 0) ;;
   pressure <- inhg_to_hpa day "pressure" ;;
   description <- dict_get day "conditions" (VStr "") ;;
   vc_icon <- dict_get day "icon" (VStr "") ;;
   icon <- _get_weather_icon_code vc_icon ;;
   speed <- dict_get day "windspeed" (VNum 0) ;;
   deg <- dict_get day "winddir" (VNum 0) ;;
   precipprob <- dict_get day "precipprob" (VNum 0) ;;
   pp <- as_num precipprob ;;
   Ok (VDict
     [ ("dt", VNum (inject_Z dt));
       ("main", VDict
          [ ("temp", temp);
            ("temp_min", temp_min);
            ("temp_max", temp_max);
            ("humidity", humidity);
            ("pressure", pressure) ]);
       ("weather", VList
          [ VDict [ ("description", description); ("icon", VStr icon) ] ]);
       ("wind", VDict [ ("speed", speed); ("deg", deg) ]);
       ("pop", VNum (pp / 100)) ]))%res.

Definition vc_forecast_request (city units end_date : string) : request :=
  {| url := vc_base_url ++ "/" ++ city ++ "/today/" ++ end_date;
     params := [ ("key", VStr visual_crossing_key);
                 ("unitGroup", VStr (unit_group units));
                 ("include", VStr "days,alerts");
                 ("contentType", VStr "json") ];
     timeout := 15 |}.

(** The dictionary built under [# Convert to standard format] in
    [_get_vc_forecast]. *)
Definition vc_forecast_record (city : string) (data : value) : res value :=
  (days_field <- dict_get data "days" (VList []) ;;
   days_list <- iterate days_field ;;
   forecast_list <- rmap vc_forecast_item days_list ;;
   alerts <- dict_get data "alerts" (VList []) ;;
   Ok (VDict
     [ ("source", VStr "visual_crossing");
       ("city", VDict [ ("name", VStr city) ]);
       ("list", VList forecast_list);
       ("alerts", alerts) ]))%res.

Definition _get_vc_forecast (city : string) (days : Z) (units : string) : io value :=
  try_io
    (end_date <- lift (date_after pf (days - 1)) ;;
     data <- fetch_json (vc_forecast_request city units end_date) ;;
     lift (vc_forecast_record city data))%io
    VNone.

Definition geocoding_request (city : string) : request :=
  {| url := owm_geocoding_url ++ "/direct";
     params := [ ("q", VStr city);
                 ("limit", VNum 1);
                 ("appid", VStr openweather_key) ];
     timeout := 10 |}.

(** [None] is Python's [None], [Some (lat, lon)] the returned pair. *)
Definition _get_city_coordinates (city : string) : io (option (value * value)) :=
  try_io
    (data <- fetch_json (geocoding_request city) ;;
     if truthy data then
       lift (first <- getitem0 data ;;
             lat <- getitem first "lat" ;;
             first' <- getitem0 data ;;
             lon <- getitem first' "lon" ;;
             Ok (Some (lat, lon)))%res
     else ret None)%io
    None.

Definition owm_forecast_request (lat lon : value) (units : string) : request :=
  {| url := owm_base_url ++ "/forecast";
     params := [ ("lat", lat); ("lon", lon);
                 ("appid", VStr openweather_key);
                 ("units", VStr units) ];
     timeout := 10 |}.

Definition _get_owm_extended_forecast (city units : string) : io value :=
  try_io
    (coords <- _get_city_coordinates city ;;
     match coords with
     | None => ret VNone
     | Some (lat, lon) =>
         data <- fetch_json (owm_forecast_request lat lon units) ;;
         lift (setitem data "source" (VStr "openweathermap"))
     end)%io
    VNone.

Definition get_10day_forecast (city units : string) : io value :=
  try_io
    (forecast_data <- _get_vc_forecast city 10 units ;;
     if truthy forecast_data then ret forecast_data
     else _get_owm_extended_forecast city units)%io
    VNone.

Definition owm_alerts_request (lat lon : value) : request :=
  {| url := owm_base_url ++ "/weather";
     params := [ ("lat", lat); ("lon", lon); ("appid", VStr openweather_key) ];
     timeout := 10 |}.

Definition thunderstorm_alert (description : value) : value :=
  VDict [ ("event", VStr "Severe Thunderstorm Warning");
          ("description", VStr ("Severe weather detected: " ++ py_str pf description));
          ("severity", VStr "Severe");
          ("start", VStr (now_isoformat pf));
          ("source", VStr "OpenWeatherMap Analysis") ].

Definition wind_alert (wind_speed : value) : value :=
  VDict [ ("event", VStr "High Wind Warning");
          ("description",
           VStr ("Strong winds detected: " ++ py_str pf wind_speed ++ " m/s"));
          ("severity", VStr "Moderate");
          ("start", VStr (now_isoformat pf));
          ("source", VStr "OpenWeatherMap Analysis") ].

(** The alerts [_get_owm_alerts] derives from a current-weather document. *)
Definition owm_derived_alerts (data : value) : res (list value) :=
  (weather <- dict_get data "weather" VNone ;;
   if truthy weather then
     w <- getitem data "weather" ;;
     w0 <- getitem0 w ;;
     main <- getitem w0 "main" ;;
     main_str <- as_str main ;;
     let main_weather := lower main_str in
     w' <- getitem data "weather" ;;
     w0' <- getitem0 w' ;;
     description <- getitem w0' "description" ;;
     let alerts :=
       if str_in "thunderstorm" main_weather || str_in "tornado" main_weather
       then [thunderstorm_alert description] else [] in
     wind <- dict_get data "wind" (VDict []) ;;
     wind_speed <- dict_get wind "speed" (VNum 0) ;;
     ws <- as_num wind_speed ;;
     Ok (if Qle_bool ws 15 then alerts
         else (alerts ++ [wind_alert wind_speed])%list)
   else Ok [])%res.

Definition _get_owm_alerts (lat lon : value) : io (list value) :=
  try_io
    (data <- fetch_json (owm_alerts_request lat lon) ;;
     lift (owm_derived_alerts data))%io
    [].

Definition vc_alerts_request (city : string) : request :=
  {| url := vc_base_url ++ "/" ++ city ++ "/today";
     params := [ ("key", VStr visual_crossing_key);
                 ("include", VStr "alerts");
                 ("contentType", VStr "json") ];
     timeout := 10 |}.

Definition vc_alert (alert : value) : res value :=
  (event <- dict_get alert "event" (VStr "Weather Alert") ;;
   description <- dict_get alert "description" (VStr "Weather alert in effect") ;;
   severity <- dict_get alert "severity" (VStr "Unknown") ;;
   start <- dict_get alert "onset" (VStr (now_isoformat pf)) ;;
   end_ <- dict_get alert "expires" (VStr "") ;;
   Ok (VDict [ ("event", event); ("description", description);
               ("severity", severity); ("start", start); ("end", end_);
               ("source", VStr "Visual Crossing") ]))%res.

Definition vc_native_alerts (data : value) : res (list value) :=
  (vc_alerts <- dict_get data "alerts" (VList []) ;;
   items <- iterate vc_alerts ;;
   rmap vc_alert items)%res.

Definition _get_vc_alerts (city : string) : io (list value) :=
  try_io
    (data <- fetch_json (vc_alerts_request city) ;;
     lift (vc_native_alerts data))%io
    [].

(** [alerts] is one list, extended in place; the handler of the outer [try]
    returns it as it is when the exception arrives, so each stage is guarded
    with the list built so far. *)
Definition get_weather_alerts (city : string) : io (list value) :=
  let alerts : list value := [] in
  try_io
    (coords <- _get_city_coordinates city ;;
     match coords with
     | None => ret alerts
     | Some (lat, lon) =>
         try_io
           (owm_alerts <- _get_owm_alerts lat lon ;;
            let alerts := (alerts ++ owm_alerts)%list in
            try_io
              (vc_alerts <- _get_vc_alerts city ;;
               let alerts := (alerts ++ vc_alerts)%list in
               ret alerts)
              alerts)
           alerts
     end)%io
    alerts.

End Service.

(** ** WeatherDataProcessor *)

(** The dictionary [format_current_weather] builds, key by key. *)
Record current_display : Type := mk_current_display {
  cd_city : value;
  cd_country : value;
  cd_temperature : Z;
  cd_feels_like : Z;
  cd_description : value;
  cd_humidity : value;
  cd_pressure : Z;
  cd_wind_speed : Q;
  cd_wind_direction : value;
  cd_visibility : Q;
  cd_sunrise : string;
  cd_sunset : string;
  cd_timestamp : string;
  cd_source : value
}.

(** One entry of the list [format_forecast_data] returns. *)
Record forecast_display : Type := mk_forecast_display {
  fd_date : string;
  fd_day_name : string;
  fd_min_temp : Z;
  fd_max_temp : Z;
  fd_description : value;
  fd_humidity : value;
  fd_wind_speed : Q;
  fd_pressure : Z;
  fd_pop : Z
}.

(** One entry of the list [format_weather_alerts] returns. *)
Record alert_display : Type := mk_alert_display {
  ad_title : value;
  ad_description : value;
  ad_severity : value;
  ad_start_time : value;
  ad_end_time : value;
  ad_source : value;
  ad_icon : string
}.

Section Processor.

Variable pf : platform.

(** The body of the [try] block of [format_current_weather]. *)
Definition current_display_of (weather_data : value) : res current_display :=
  (city <- dict_get weather_data "name" (VStr "") ;;
   sys <- dict_get weather_data "sys" (VDict []) ;;
   country <- dict_get sys "country" (VStr "") ;;
   main <- dict_get weather_data "main" (VDict []) ;;
   temp <- dict_get main "temp" (VNum 0) ;;
   temperature <- round_value temp ;;
   main2 <- dict_get weather_data "main" (VDict []) ;;
   feels <- dict_get main2 "feels_like" (VNum 0) ;;
   feels_like <- round_value feels ;;
   weather <- dict_get weather_data "weather" (VList [VDict []]) ;;
   weather0 <- getitem0 weather ;;
   description <- dict_get weather0 "description" (VStr "") ;;
   main3 <- dict_get weather_data "main" (VDict []) ;;
   humidity <- dict_get main3 "humidity" (VNum 0) ;;
   main4 <- dict_get weather_data "main" (VDict []) ;;
   press <- dict_get main4 "pressure" (VNum 0) ;;
   pressure <- round_value press ;;
   wind <- dict_get weather_data "wind" (VDict []) ;;
   speed <- dict_get wind "speed" (VNum 0) ;;
   wind_speed <- round1_value speed ;;
   wind2 <- dict_get weather_data "wind" (VDict []) ;;
   wind_direction <- dict_get wind2 "deg" (VNum 0) ;;
   vis <- dict_get weather_data "visibility" (VNum 0) ;;
   vis_q <- as_num vis ;;
   let visibility := py_round1 (vis_q / 1000) in
   sys2 <- dict_get weather_data "sys" (VDict []) ;;
   sunrise_ts <- dict_get sys2 "sunrise" (VNum 0) ;;
   sunrise <- fromtimestamp pf sunrise_ts ;;
   sys3 <- dict_get weather_data "sys" (VDict []) ;;
   sunset_ts <- dict_get sys3 "sunset" (VNum 0) ;;
   sunset <- fromtimestamp pf sunset_ts ;;
   source <- dict_get weather_data "source" (VStr "unknown") ;;
   Ok {| cd_city := city;
         cd_country := country;
         cd_temperature := temperature;
         cd_feels_like := feels_like;
         cd_description := description;
         cd_humidity := humidity;
         cd_pressure := pressure;
         cd_wind_speed := wind_speed;
         cd_wind_direction := wind_direction;
         cd_visibility := visibility;
         cd_sunrise := strftime_hm sunrise;
         cd_sunset := strftime_hm sunset;
         cd_timestamp := now_display pf;
         cd_source := source |})%res.

(** [None] stands for the empty dictionary [{}] the function returns for an
    empty input and from its exception handler. *)
Definition format_current_weather (weather_data : value) : option current_display :=
  if negb (truthy weather_data) then None
  else try_except
         (formatted <- current_display_of weather_data ;; Ok (Some formatted))%res
         None.

(** The entry built for one item of Visual Crossing data (already daily). *)
Definition vc_day_display (item : value) : res forecast_display :=
  (dt <- getitem item "dt" ;;
   forecast_date <- fromtimestamp pf dt ;;
   main <- getitem item "main" ;;
   tmin <- getitem main "temp_min" ;;
   min_temp <- round_value tmin ;;
   main2 <- getitem item "main" ;;
   tmax <- getitem main2 "temp_max" ;;
   max_temp <- round_value tmax ;;
   weather <- getitem item "weather" ;;
   weather0 <- getitem0 weather ;;
   description <- getitem weather0 "description" ;;
   main3 <- getitem item "main" ;;
   humidity <- getitem main3 "humidity" ;;
   wind <- getitem item "wind" ;;
   speed <- getitem wind "speed" ;;
   wind_speed <- round1_value speed ;;
   main4 <- getitem item "main" ;;
   press <- getitem main4 "pressure" ;;
   pressure <- round_value press ;;
   pop <- dict_get item "pop" (VNum 0) ;;
   pop_q <- as_num pop ;;
   Ok {| fd_date := strftime_date forecast_date;
         fd_day_name := strftime_day_name forecast_date;
         fd_min_temp := min_temp;
         fd_max_temp := max_temp;
         fd_description := description;
         fd_humidity := humidity;
         fd_wind_speed := wind_speed;
         fd_pressure := pressure;
         fd_pop := py_round (pop_q * 100) |})%res.

(** [daily_data[date].append(item)], creating the entry of a new date at the
    end of the dictionary. *)
Fixpoint add_to_day (date : string) (item : value)
    (daily_data : list (string * list value)) : list (string * list value) :=
  match daily_data with
  | [] => [(date, [item])]
  | (d, items) :: rest =>
      if String.eqb date d then (d, (items ++ [item])%list) :: rest
      else (d, items) :: add_to_day date item rest
  end.

(** The grouping loop over [forecast_list]. *)
Fixpoint group_by_date (forecast_list : list value)
    (daily_data : list (string * list value)) : res (list (string * list value)) :=
  match forecast_list with
  | [] => Ok daily_data
  | item :: rest =>
      (dt <- getitem item "dt" ;;
       t <- fromtimestamp pf dt ;;
       let date := strftime_date t in
       group_by_date rest (add_to_day date item daily_data))%res
  end.

(** [item['main'][key]] as a number. *)
Definition main_field (key : string) (item : value) : res Q :=
  (main <- getitem item "main" ;; v <- getitem main key ;; as_num v)%res.

Definition wind_speed_field (item : value) : res Q :=
  (wind <- getitem item "wind" ;; v <- getitem wind "speed" ;; as_num v)%res.

Definition pop_field (item : value) : res Q :=
  (v <- dict_get item "pop" (VNum 0) ;; as_num v)%res.

Definition description_field (item : value) : res value :=
  (weather <- getitem item "weather" ;;
   weather0 <- getitem0 weather ;;
   getitem weather0 "description")%res.

(** [sum(f(item) for item in day_items) / len(day_items)] *)
Definition mean_of (f : value -> res Q) (day_items : list value) : res Q :=
  (xs <- rmap f day_items ;;
   match day_items with
   | [] => Raise ZeroDivisionError
   | _ => Ok (py_sum xs / inject_Z (Z.of_nat (List.length day_items)))
   end)%res.

(** [set(descriptions)]: building it needs every item hashable. *)
Definition py_set (l : list value) : res (list value) :=
  if forallb hashable l then Ok (set_iter pf l) else Raise TypeError.

(** [max(set(descriptions), key=descriptions.count)] *)
Definition most_frequent (descriptions : list value) : res value :=
  (s <- py_set descriptions ;;
   max_key (fun d => count d descriptions) s)%res.

(** The entry built for one date of OpenWeatherMap data.  [min] and [max]
    are taken over numbers: on a list with an item that is not a number
    either the comparison or the [round] that follows raises. *)
Definition aggregate_day (date : string) (day_items : list value)
  : res forecast_display :=
  (temps <- rmap (main_field "temp") day_items ;;
   descriptions <- rmap description_field day_items ;;
   parsed <- strptime_date pf date ;;
   lo <- py_min temps ;;
   hi <- py_max temps ;;
   description <- most_frequent descriptions ;;
   humidity <- mean_of (main_field "humidity") day_items ;;
   wind_speed <- mean_of wind_speed_field day_items ;;
   pressure <- mean_of (main_field "pressure") day_items ;;
   pop <- mean_of pop_field day_items ;;
   Ok {| fd_date := date;
         fd_day_name := strftime_day_name parsed;
         fd_min_temp := py_round lo;
         fd_max_temp := py_round hi;
         fd_description := description;
         fd_humidity := VNum (inject_Z (py_round humidity));
         fd_wind_speed := py_round1 wind_speed;
         fd_pressure := py_round pressure;
         fd_pop := py_round (pop * 100) |})%res.

(** The loop over [list(daily_data.items())[:days]], with its [break]. *)
Fixpoint day_loop (days : Z) (groups : list (string * list value))
    (forecasts : list forecast_display) : res (list forecast_display) :=
  match groups with
  | [] => Ok forecasts
  | (date, day_items) :: rest =>
      if (days <=? Z.of_nat (List.length forecasts))%Z then Ok forecasts
      else (entry <- aggregate_day date day_items ;;
            day_loop days rest (forecasts ++ [entry])%list)%res
  end.

(** The body of the [try] block of [format_forecast_data]. *)
Definition forecast_display_of (forecast_data : value) (days : Z)
  : res (list forecast_display) :=
  (forecast_list <- dict_get forecast_data "list" (VList []) ;;
   source <- dict_get forecast_data "source" VNone ;;
   if hash_eq source (VStr "visual_crossing") then
     items <- iterate_slice_to days forecast_list ;;
     rmap vc_day_display items
   else
     items <- iterate forecast_list ;;
     daily_data <- group_by_date items [] ;;
     day_loop days (list_slice_to days daily_data) [])%res.

Definition format_forecast_data (forecast_data : value) (days : Z)
  : list forecast_display :=
  if negb (truthy forecast_data) then []
  else try_except (forecast_display_of forecast_data days) [].

(** [severity.lower()] needs a string. *)
Definition alert_display_of (alert : value) : res alert_display :=
  (title <- dict_get alert "event" (VStr "Weather Alert") ;;
   description <- dict_get alert "description" (VStr "Alert in effect") ;;
   severity <- dict_get alert "severity" (VStr "Unknown") ;;
   start_time <- dict_get alert "start" (VStr "") ;;
   end_time <- dict_get alert "end" (VStr "") ;;
   source <- dict_get alert "source" (VStr "Weather Service") ;;
   sev <- dict_get alert "severity" (VStr "") ;;
   sev_str <- as_str sev ;;
   Ok {| ad_title := title;
         ad_description := description;
         ad_severity := severity;
         ad_start_time := start_time;
         ad_end_time := end_time;
         ad_source := source;
         ad_icon := _get_alert_icon sev_str |})%res.

(** No [try] block here: an exception leaves the function. *)
Definition format_weather_alerts (alerts : list value) : res (list alert_display) :=
  rmap alert_display_of alerts.

End Processor.

(** * Part II: properties *)

(** ** Rounding lemmas *)

Lemma Qfloor_bounds (q : Q) : inject_Z (Qfloor q) <= q /\ q < inject_Z (Qfloor q) + 1.
Proof.
  split.
  - apply Qfloor_le.
  - pose proof (Qlt_floor q) as H.
    rewrite inject_Z_plus in H. exact H.
Qed.

Ltac qcmp H :=
  match type of H with
  | Qcompare _ _ = Eq => apply Qeq_alt in H
  | Qcompare _ _ = Lt => apply Qlt_alt in H
  | Qcompare _ _ = Gt => apply Qgt_alt in H
  end.

Ltac qarith := rewrite ?inject_Z_plus in *; change (inject_Z 1) with 1 in *; lra.

Lemma py_round_nearest (q : Q) : Qabs (inject_Z (py_round q) - q) <= 1 # 2.
Proof.
  destruct (Qfloor_bounds q) as [Hlo Hhi].
  unfold py_round.
  destruct (Qcompare (q - inject_Z (Qfloor q)) (1 # 2)) eqn:E.
  - qcmp E.
    destruct (Z.even (Qfloor q)); apply Qabs_Qle_condition; split; qarith.
  - qcmp E. apply Qabs_Qle_condition; split; qarith.
  - qcmp E. apply Qabs_Qle_condition; split; qarith.
Qed.


Lemma py_round_mono (p q : Q) : p <= q -> (py_round p <= py_round q)%Z.
Proof.
  intros H.
  destruct (Qfloor_bounds p) as [Plo Phi], (Qfloor_bounds q) as [Qlo Qhi].
  assert (Hf : (Qfloor p <= Qfloor q)%Z) by (now apply Qfloor_resp_le).
  assert (Hp : (Qfloor p <= py_round p <= Qfloor p + 1)%Z).
  { unfold py_round. destruct (Qcompare _ _); [ destruct (Z.even _) | | ]; lia. }
  assert (Hq : (Qfloor q <= py_round q <= Qfloor q + 1)%Z).
  { unfold py_round. destruct (Qcompare _ _); [ destruct (Z.even _) | | ]; lia. }
  destruct (Z.eq_dec (Qfloor p) (Qfloor q)) as [e | ne]; [ | lia ].
  unfold py_round. rewrite e in *.
  destruct (Qcompare (p - inject_Z (Qfloor q)) (1 # 2)) eqn:E1;
    destruct (Qcompare (q - inject_Z (Qfloor q)) (1 # 2)) eqn:E2;
    try (destruct (Z.even (Qfloor q))); try lia;
    qcmp E1; qcmp E2; exfalso; qarith.
Qed.


(** ** Equality of hashable objects *)

Lemma hash_eq_refl (x : value) : hashable x = true -> hash_eq x x = true.
Proof.
  destruct x; simpl; intros H; try discriminate; try reflexivity.
  - destruct b; reflexivity.
  - apply Qeq_bool_iff. reflexivity.
  - apply String.eqb_refl.
Qed.

Lemma hash_eq_sym (x y : value) : hash_eq x y = hash_eq y x.
Proof.
  assert (Q : forall p q, Qeq_bool p q = Qeq_bool q p).
  { intros p q. destruct (Qeq_bool p q) eqn:E1, (Qeq_bool q p) eqn:E2; trivial.
    - apply Qeq_bool_iff in E1. symmetry in E1. apply Qeq_bool_iff in E1. congruence.
    - apply Qeq_bool_iff in E2. symmetry in E2. apply Qeq_bool_iff in E2. congruence. }
  destruct x, y; simpl; trivial; try apply Q.
  apply String.eqb_sym.
Qed.

Lemma hash_eq_trans (x y z : value) :
  hash_eq x y = true -> hash_eq y z = true -> hash_eq x z = true.
Proof.
  assert (Q : forall p q r, Qeq_bool p q = true -> Qeq_bool q r = true -> Qeq_bool p r = true).
  { intros p q r H1 H2. apply Qeq_bool_iff in H1, H2. apply Qeq_bool_iff.
    now rewrite H1. }
  destruct x, y; simpl; try discriminate; destruct z; simpl; try discriminate;
    trivial; try apply Q.
  intros H1 H2. apply String.eqb_eq in H1, H2. subst. apply String.eqb_refl.
Qed.

Lemma hash_eq_hashable (x y : value) : hash_eq x y = true -> hashable x = true.
Proof. destruct x; simpl; trivial; destruct y; discriminate. Qed.

Lemma count_hash_eq (x y : value) (l : list value) :
  hash_eq x y = true -> count x l = count y l.
Proof.
  intros H. unfold count. f_equal. apply filter_ext. intros a.
  destruct (hash_eq x a) eqn:E1, (hash_eq y a) eqn:E2; trivial.
  - rewrite hash_eq_sym in H. rewrite (hash_eq_trans _ _ _ H E1) in E2. discriminate.
  - rewrite (hash_eq_trans _ _ _ H E2) in E1. discriminate.
Qed.

Lemma mem_spec (x : value) (l : list value) :
  mem x l = true <-> exists y, In y l /\ hash_eq x y = true.
Proof. unfold mem. apply existsb_exists. Qed.

(** ** Icon lookup *)

Lemma lower_ascii_idem (c : ascii) : lower_ascii (lower_ascii c) = lower_ascii c.
Proof. destruct c as [[] [] [] [] [] [] [] []]; reflexivity. Qed.

Lemma lower_idem (s : string) : lower (lower s) = lower s.
Proof.
  induction s as [| c s IH]; simpl; [ reflexivity | ].
  now rewrite lower_ascii_idem, IH.
Qed.

(** What the loop returns, for any table: the icon of the first entry whose
    key occurs in the description, or nothing when no key occurs. *)
Lemma icon_loop_spec (items : list (string * string)) (d : string) :
  match icon_loop items d with
  | Some icon =>
      exists before key after,
        items = (before ++ (key, icon) :: after)%list /\
        (forall k i, In (k, i) before -> str_in k d = false) /\
        str_in key d = true
  | None => forall k i, In (k, i) items -> str_in k d = false
  end.
Proof.
  induction items as [| [key icon] rest IH]; simpl.
  - intros k i [].
  - destruct (str_in key d) eqn:E.
    + exists [], key, rest. repeat split; trivial. intros k i [].
    + destruct (icon_loop rest d) as [icon' |].
      * destruct IH as (before & key' & after & -> & Hb & Hk).
        exists ((key, icon) :: before), key', after. repeat split; trivial.
        intros k i [H | H]; [ inversion H; subst; exact E | eauto ].
      * intros k i [H | H]; [ inversion H; subst; exact E | eauto ].
Qed.

Lemma icon_loop_first (before : list (string * string)) (key icon : string)
    (after : list (string * string)) (d : string) :
  (forall k i, In (k, i) before -> str_in k d = false) ->
  str_in key d = true ->
  icon_loop (before ++ (key, icon) :: after)%list d = Some icon.
Proof.
  intros Hb Hk. induction before as [| [k i] before IH]; simpl.
  - now rewrite Hk.
  - rewrite (Hb k i (or_introl eq_refl)). apply IH.
    intros k' i' H. apply (Hb k' i'). now right.
Qed.

(** C6, as the code has it.  The icon is a function of the description; the
    keywords are tried in the order of the table against the lower-cased
    description, so letter case does not matter; the first keyword that
    occurs gives the icon; a description in which no keyword occurs gets the
    default icon, which is the icon of the entry "few clouds" and differs
    from the icon of the entry "partly cloudy"; a description in which
    "light rain" occurs, and none of the eight keywords before it, gets the
    icon of "light rain", which is not the icon of "rain". *)
Theorem get_weather_icon_first_match (description : string) :
  get_weather_icon (lower description) = get_weather_icon description /\
  ((exists before key icon after,
      icon_map = (before ++ (key, icon) :: after)%list /\
      (forall k i, In (k, i) before -> str_in k (lower description) = false) /\
      str_in key (lower description) = true /\
      get_weather_icon description = icon)
   \/
   ((forall k i, In (k, i) icon_map -> str_in k (lower description) = false) /\
    get_weather_icon description = default_icon)) /\
  table_icon "few clouds" icon_map = Some default_icon /\
  table_icon "partly cloudy" icon_map <> Some default_icon /\
  table_icon "light rain" icon_map <> table_icon "rain" icon_map /\
  (str_in "light rain" (lower description) = true ->
   (forall k i, In (k, i) (firstn 8 icon_map) -> str_in k (lower description) = false) ->
   Some (get_weather_icon description) = table_icon "light rain" icon_map).
Proof.
  split; [ | split; [ | split; [ | split; [ | split ] ] ] ].
  - unfold get_weather_icon. now rewrite lower_idem.
  - unfold get_weather_icon.
    pose proof (icon_loop_spec icon_map (lower description)) as H.
    destruct (icon_loop icon_map (lower description)) as [icon |].
    + left. destruct H as (before & key & after & E & Hb & Hk).
      exists before, key, icon, after. auto.
    + right. auto.
  - reflexivity.
  - vm_compute. discriminate.
  - vm_compute. discriminate.
  - intros Hlight Hbefore. unfold get_weather_icon.
    change icon_map with
      (firstn 8 icon_map
         ++ ("light rain", snd (nth 8 icon_map ("", ""))) :: skipn 9 icon_map)%list at 1.
    rewrite (icon_loop_first (firstn 8 icon_map) "light rain" _ _ _ Hbefore Hlight).
    reflexivity.
Qed.

(** A description with both keywords and none of the earlier ones. *)
Lemma get_weather_icon_first_match_witness :
  Some (get_weather_icon "Light rain, then rain all day")
  = table_icon "light rain" icon_map.
Proof.
  apply (proj2 (proj2 (proj2 (proj2 (proj2
           (get_weather_icon_first_match "Light rain, then rain all day")))))).
  - reflexivity.
  - intros k i H. simpl in H.
    repeat (destruct H as [H | H]; [ inversion H; reflexivity | ]).
    destruct H.
Defined.

Example icon_light_rain :
  get_weather_icon "Light Rain Showers" = get_weather_icon "light rain".
Proof. reflexivity. Qed.

(** "Heavy Thunderstorm with Hail" is matched by "thunderstorm"; the table
    has no entry for hail. *)
Example icon_thunderstorm_with_hail :
  Some (get_weather_icon "Heavy Thunderstorm with Hail")
  = table_icon "thunderstorm" icon_map /\
  table_icon "hail" icon_map = None.
Proof. split; reflexivity. Qed.

(** C6 as stated fails: "Windy" contains no keyword of the table, and its
    icon is not the icon the table gives to "partly cloudy". *)
Lemma default_icon_is_not_partly_cloudy :
  icon_loop icon_map (lower "Windy") = None /\
  get_weather_icon "Windy" = default_icon /\
  table_icon "partly cloudy" icon_map = Some (snd (nth 2 icon_map ("", ""))) /\
  String.eqb (get_weather_icon "Windy") (snd (nth 2 icon_map ("", ""))) = false.
Proof. repeat split; reflexivity. Qed.

(** ** Current conditions: primary provider, then the fallback *)

Lemma assoc_set_same (k : string) (v : value) (kv : list (string * value)) :
  assoc k (assoc_set k v kv) = Some v.
Proof.
  induction kv as [| [k' v'] kv IH]; simpl.
  - now rewrite String.eqb_refl.
  - destruct (String.eqb k k') eqn:E; simpl.
    + now rewrite String.eqb_refl.
    + now rewrite E.
Qed.

Lemma assoc_set_other (k k' : string) (v : value) (kv : list (string * value)) :
  String.eqb k' k = false -> assoc k' (assoc_set k v kv) = assoc k' kv.
Proof.
  intros Hk. induction kv as [| [k0 v0] kv IH]; simpl.
  - now rewrite Hk.
  - destruct (String.eqb k k0) eqn:E; simpl.
    + apply String.eqb_eq in E. subst k0. now rewrite Hk.
    + now rewrite IH.
Qed.

(** Inversion of a successful sequence of [res] steps, one step at a time. *)
Ltac rstep H :=
  match type of H with
  | rbind ?m _ = Ok _ =>
      let E := fresh "E" in
      destruct m eqn:E; [ cbn [rbind] in H | discriminate H ]
  end.

Section ServiceFacts.

Variable pf : platform.
Variables vc_key owm_key : string.

(** What a provider call has in hand after its first three statements. *)
Definition reply_json (reply : option response) : res value :=
  match reply with
  | None => Raise ConnectionError
  | Some r => (_ <- raise_for_status r ;; json r)%res
  end.

Lemma fetch_json_run (req : request) (log : list request) :
  fetch_json pf req log = (reply_json (network pf log req), (log ++ [req])%list).
Proof.
  unfold fetch_json, bind, session_get, lift, reply_json.
  destruct (network pf log req) as [r |]; [ | reflexivity ].
  destruct (raise_for_status r) as [[] | e]; reflexivity.
Qed.

(** A provider call with its own handler: the request goes out once and the
    outcome is the converted document or the handler's value. *)
Lemma guarded_call_run {A} (req : request) (convert : value -> res A)
    (handler : A) (log : list request) :
  try_io (data <- fetch_json pf req ;; lift (convert data))%io handler log
  = (Ok (try_except (data <- reply_json (network pf log req) ;; convert data)%res
                    handler),
     (log ++ [req])%list).
Proof.
  unfold try_io, bind. rewrite fetch_json_run.
  destruct (reply_json (network pf log req)) as [data | e]; simpl; [ | reflexivity ].
  unfold lift. destruct (convert data); reflexivity.
Qed.

Definition vc_current_result (city units : string) (log : list request) : value :=
  try_except
    (data <- reply_json (network pf log (vc_current_request vc_key city units)) ;;
     vc_current_record pf city data)%res
    VNone.

Definition owm_current_result (city units : string) (log : list request) : value :=
  try_except
    (data <- reply_json (network pf log (owm_current_request owm_key city units)) ;;
     setitem data "source" (VStr "openweathermap"))%res
    VNone.

Lemma vc_current_run (city units : string) (log : list request) :
  _get_vc_current_weather pf vc_key city units log
  = (Ok (vc_current_result city units log),
     (log ++ [vc_current_request vc_key city units])%list).
Proof. apply guarded_call_run. Qed.

Lemma owm_current_run (city units : string) (log : list request) :
  _get_owm_current_weather pf owm_key city units log
  = (Ok (owm_current_result city units log),
     (log ++ [owm_current_request owm_key city units])%list).
Proof. apply guarded_call_run. Qed.

(** The fields of the record built from a Visual Crossing document. *)
Lemma vc_current_record_fields (city : string) (data v : value) :
  vc_current_record pf city data = Ok v ->
  exists current temp pressure main,
    dict_get data "currentConditions" (VDict []) = Ok current /\
    (temp <- dict_get current "temp" (VNum 0) ;; as_num temp)%res = Ok temp /\
    inhg_to_hpa current "pressure" = Ok pressure /\
    getitem v "source" = Ok (VStr "visual_crossing") /\
    getitem v "main" = Ok main /\
    getitem main "pressure" = Ok pressure /\
    getitem main "temp_min" = Ok (VNum (temp - 2)) /\
    getitem main "temp_max" = Ok (VNum (temp + 2)) /\
    truthy v = true.
Proof.
  unfold vc_current_record. intros H.
  repeat rstep H.
  injection H as <-.
  match goal with
  | Et : dict_get ?c "temp" _ = Ok ?t, En : as_num ?t = Ok ?q,
    Ep : inhg_to_hpa ?c _ = Ok ?p |- _ =>
      exists c, q, p; eexists;
      split; [ reflexivity | ];
      split; [ rewrite Et; exact En | ];
      split; [ exact Ep | ]
  end.
  repeat split; reflexivity.
Qed.

(** The primary call ends in [None] exactly when its [try] block raised. *)
Lemma vc_current_result_none (city units : string) (log : list request) :
  vc_current_result city units log = VNone <->
  exists e,
    (data <- reply_json (network pf log (vc_current_request vc_key city units)) ;;
     vc_current_record pf city data)%res = Raise e.
Proof.
  unfold vc_current_result.
  destruct (reply_json _) as [data | e]; simpl.
  - destruct (vc_current_record pf city data) as [v |] eqn:E; simpl.
    + destruct (vc_current_record_fields _ _ E) as (? & ? & ? & ? & _ & _ & _ & _ & _ & _ & _ & _ & T).
      split; [ intros ->; discriminate T | intros [e' He]; discriminate He ].
    + split; eauto.
  - split; eauto.
Qed.

Lemma vc_current_result_truthy (city units : string) (log : list request) :
  truthy (vc_current_result city units log) = false <->
  vc_current_result city units log = VNone.
Proof.
  split; [ | intros ->; reflexivity ].
  unfold vc_current_result.
  destruct (reply_json _) as [data | e]; simpl; trivial.
  destruct (vc_current_record pf city data) as [v |] eqn:E; simpl; trivial.
  destruct (vc_current_record_fields _ _ E) as (? & ? & ? & ? & _ & _ & _ & _ & _ & _ & _ & _ & T).
  congruence.
Qed.

Lemma get_current_weather_run (city units : string) (log : list request) :
  let log1 := (log ++ [vc_current_request vc_key city units])%list in
  get_current_weather pf vc_key owm_key city units log
  = if truthy (vc_current_result city units log)
    then (Ok (vc_current_result city units log), log1)
    else (Ok (owm_current_result city units log1),
          (log1 ++ [owm_current_request owm_key city units])%list).
Proof.
  unfold get_current_weather, try_io, bind. rewrite vc_current_run.
  destruct (truthy (vc_current_result city units log)).
  - reflexivity.
  - rewrite owm_current_run. reflexivity.
Qed.

(** C1.  [get_current_weather] first issues the Visual Crossing request for
    the city and unit system.  When that call gives a record, the record is
    the result and nothing else is requested.  Only when it gives [None]
    (its [try] block raised: transport failure, error status, a body that is
    not JSON or cannot be converted) the OpenWeatherMap request for the same
    city and units follows, and its outcome is the result.  The result is
    [None] exactly when both calls give [None].  When the primary answers
    with an error status and the secondary answers with a JSON object, the
    result is that object with ["source"] set to ["openweathermap"] and every
    other key, the temperature among them, untouched. *)
Theorem get_current_weather_fallback (city units : string) (log : list request) :
  let vc_request := vc_current_request vc_key city units in
  let owm_request := owm_current_request owm_key city units in
  let log1 := (log ++ [vc_request])%list in
  let primary := vc_current_result city units log in
  let secondary := owm_current_result city units log1 in
  _get_vc_current_weather pf vc_key city units log = (Ok primary, log1) /\
  (primary = VNone <->
   exists e, (data <- reply_json (network pf log vc_request) ;;
              vc_current_record pf city data)%res = Raise e) /\
  (primary <> VNone ->
   get_current_weather pf vc_key owm_key city units log = (Ok primary, log1)) /\
  (primary = VNone ->
   _get_owm_current_weather pf owm_key city units log1
   = (Ok secondary, (log1 ++ [owm_request])%list) /\
   get_current_weather pf vc_key owm_key city units log
   = (Ok secondary, (log1 ++ [owm_request])%list)) /\
  (fst (get_current_weather pf vc_key owm_key city units log) = Ok VNone <->
   primary = VNone /\ secondary = VNone) /\
  (forall r kv,
     network pf log vc_request = Some r ->
     (400 <= status_code r < 600)%Z ->
     network pf log1 owm_request
     = Some {| status_code := 200; body := Some (VDict kv) |} ->
     exists reading,
       fst (get_current_weather pf vc_key owm_key city units log) = Ok (VDict reading) /\
       assoc "source" reading = Some (VStr "openweathermap") /\
       forall k, String.eqb k "source" = false -> assoc k reading = assoc k kv).
Proof.
  intros vc_request owm_request log1 primary secondary.
  pose proof (get_current_weather_run city units log) as Hrun. cbv zeta in Hrun.
  fold vc_request owm_request log1 primary secondary in Hrun.
  assert (Htruthy : truthy primary = false <-> primary = VNone)
    by apply vc_current_result_truthy.
  split; [ apply vc_current_run | ].
  split; [ apply vc_current_result_none | ].
  split; [ | split; [ | split ] ].
  - intros Hne. rewrite Hrun.
    destruct (truthy primary); [ reflexivity | ].
    exfalso. apply Hne. now apply Htruthy.
  - intros Hnone. split; [ apply owm_current_run | ].
    rewrite Hrun. apply Htruthy in Hnone. now rewrite Hnone.
  - rewrite Hrun. destruct (truthy primary); simpl.
    + split.
      * intros H. injection H as H. apply Htruthy in H. discriminate H.
      * intros [H _]. apply Htruthy in H. discriminate H.
    + split.
      * intros H. injection H as H. split; [ now apply Htruthy | exact H ].
      * intros [_ H]. now rewrite H.
  - intros r kv Hr Hstatus Hsecond.
    assert (Hp : primary = VNone).
    { unfold primary, vc_current_result. fold vc_request. rewrite Hr. simpl.
      unfold raise_for_status.
      replace ((400 <=? status_code r)%Z && (status_code r <? 600)%Z) with true
        by (symmetry; apply andb_true_iff; split; [ apply Z.leb_le | apply Z.ltb_lt ]; lia).
      reflexivity. }
    rewrite Hrun. apply Htruthy in Hp. rewrite Hp. simpl.
    unfold secondary, owm_current_result. fold vc_request log1 owm_request.
    rewrite Hsecond. simpl.
    eexists. split; [ reflexivity | ]. split.
    + apply assoc_set_same.
    + intros k Hk. now apply assoc_set_other.
Qed.

(** The conversion of a pressure field: a value that counts as true must be
    a number and is multiplied by 33.8639; an absent field, [None], zero and
    the like give 0. *)
Lemma inhg_to_hpa_spec (current pressure : value) (key : string) :
  inhg_to_hpa current key = Ok pressure ->
  exists kv,
    current = VDict kv /\
    ((exists raw inhg,
        assoc key kv = Some raw /\ truthy raw = true /\ as_num raw = Ok inhg /\
        pressure = VNum (inhg * (338639 # 10000)))
     \/
     ((assoc key kv = None \/ exists raw, assoc key kv = Some raw /\ truthy raw = false) /\
      pressure = VNum 0)).
Proof.
  unfold inhg_to_hpa. destruct current as [| | | | | kv]; try discriminate.
  intros H. exists kv. split; [ reflexivity | ].
  simpl in H. destruct (assoc key kv) as [raw |]; simpl in H.
  - destruct (truthy raw) eqn:T.
    + destruct (as_num raw) as [inhg |] eqn:N; simpl in H; [ | discriminate H ].
      injection H as <-. left. exists raw, inhg. auto.
    + injection H as <-. right. split; [ right; exists raw; auto | reflexivity ].
  - injection H as <-. right. split; [ left; reflexivity | reflexivity ].
Qed.

(** C2.  [get_current_weather] always ends with a value.  It is [None], or
    the record built from the Visual Crossing document, whose
    [main.pressure] is the document's pressure multiplied by 33.8639 (0 when
    the document has no pressure or one that counts as false), or the JSON
    object OpenWeatherMap sent, whose pressure that provider already gives in
    hectopascals and which only gains the ["source"] key. *)
Theorem current_pressure_in_hpa (city units : string) (log : list request) :
  let vc_request := vc_current_request vc_key city units in
  let owm_request := owm_current_request owm_key city units in
  let log1 := (log ++ [vc_request])%list in
  exists v,
    fst (get_current_weather pf vc_key owm_key city units log) = Ok v /\
    (v = VNone
     \/
     (exists data current main pressure,
        reply_json (network pf log vc_request) = Ok data /\
        getitem v "source" = Ok (VStr "visual_crossing") /\
        dict_get data "currentConditions" (VDict []) = Ok (VDict current) /\
        getitem v "main" = Ok main /\
        getitem main "pressure" = Ok (VNum pressure) /\
        ((exists raw inhg,
            assoc "pressure" current = Some raw /\ truthy raw = true /\
            as_num raw = Ok inhg /\ pressure = inhg * (338639 # 10000))
         \/
         ((assoc "pressure" current = None
           \/ exists raw, assoc "pressure" current = Some raw /\ truthy raw = false) /\
          pressure = 0)))
     \/
     (exists sent,
        reply_json (network pf log1 owm_request) = Ok (VDict sent) /\
        v = VDict (assoc_set "source" (VStr "openweathermap") sent))).
Proof.
  intros vc_request owm_request log1.
  rewrite get_current_weather_run. fold vc_request log1 owm_request.
  destruct (truthy (vc_current_result city units log)) eqn:T; simpl.
  - exists (vc_current_result city units log). split; [ reflexivity | ].
    right; left. revert T. unfold vc_current_result. fold vc_request.
    destruct (reply_json (network pf log vc_request)) as [data | e]; simpl;
      [ | discriminate ].
    destruct (vc_current_record pf city data) as [v |] eqn:E; simpl; [ | discriminate ].
    intros _.
    destruct (vc_current_record_fields _ _ E)
      as (current & temp & pressure & main & Hc & _ & Hp & Hs & Hm & Hmp & _).
    destruct (inhg_to_hpa_spec _ _ Hp) as (kv & -> & Hcase).
    exists data, kv, main.
    destruct Hcase as [(raw & inhg & H1 & H2 & H3 & ->) | (H1 & ->)].
    + exists (inhg * (338639 # 10000)). repeat split; trivial.
      left. exists raw, inhg. auto.
    + exists 0. repeat split; trivial. right. auto.
  - exists (owm_current_result city units log1). split; [ reflexivity | ].
    unfold owm_current_result. fold owm_request.
    destruct (reply_json (network pf log1 owm_request)) as [data | e]; simpl;
      [ | left; reflexivity ].
    destruct data; simpl; try (left; reflexivity).
    right; right. eexists. split; reflexivity.
Qed.


End ServiceFacts.

(** ** A concrete platform: UTC clock, proleptic Gregorian calendar *)

Module Utc.

Local Open Scope Z_scope.

(** Days since 1970-01-01 to (year, month, day), and back. *)
Definition days_to_civil (days : Z) : Z * Z * Z :=
  let z := days + 719468 in
  let era := z / 146097 in
  let doe := z - era * 146097 in
  let yoe := (doe - doe / 1460 + doe / 36524 - doe / 146096) / 365 in
  let doy := doe - (365 * yoe + yoe / 4 - yoe / 100) in
  let mp := (5 * doy + 2) / 153 in
  let d := doy - (153 * mp + 2) / 5 + 1 in
  let m := if mp <? 10 then mp + 3 else mp - 9 in
  let y := yoe + era * 400 in
  (if m <=? 2 then y + 1 else y, m, d).

Definition civil_to_days (y m d : Z) : Z :=
  let y := if m <=? 2 then y - 1 else y in
  let era := y / 400 in
  let yoe := y - era * 400 in
  let doy := (153 * (if 2 <? m then m - 3 else m + 9) + 2) / 5 + d - 1 in
  let doe := yoe * 365 + yoe / 4 - yoe / 100 + doy in
  era * 146097 + doe - 719468.

Definition datetime_of_seconds (secs : Z) : res datetime :=
  let days := secs / 86400 in
  let rest := secs mod 86400 in
  let '(y, m, d) := days_to_civil days in
  if (1 <=? y) && (y <=? 9999) then
    Ok {| year := y; month := m; day := d;
          hour := rest / 3600; minute := (rest mod 3600) / 60;
          weekday := Z.to_nat ((days + 3) mod 7) |}
  else Raise ValueError.

Definition utc_fromtimestamp (v : value) : res datetime :=
  (q <- as_num v ;; datetime_of_seconds (Qfloor q))%res.

Definition digit_val (c : ascii) : option Z :=
  let n := nat_of_ascii c in
  if ((48 <=? n) && (n <=? 57))%nat then Some (Z.of_nat (n - 48)) else None.

Fixpoint number (digits : list ascii) (acc : Z) : option Z :=
  match digits with
  | [] => Some acc
  | c :: rest =>
      match digit_val c with
      | Some d => number rest (10 * acc + d)
      | None => None
      end
  end.

Definition dash : ascii := "-"%char.
Definition colon : ascii := ":"%char.

(** "YYYY-MM-DD" to (year, month, day); the date must exist. *)
Definition parse_date (s : string) : res (Z * Z * Z) :=
  match list_ascii_of_string s with
  | [y1; y2; y3; y4; s1; m1; m2; s2; d1; d2] =>
      match number [y1; y2; y3; y4] 0, number [m1; m2] 0, number [d1; d2] 0 with
      | Some y, Some m, Some d =>
          if Ascii.eqb s1 dash && Ascii.eqb s2 dash && (1 <=? y)
             && (let '(y', m', d') := days_to_civil (civil_to_days y m d) in
                 (y' =? y) && (m' =? m) && (d' =? d))
          then Ok (y, m, d) else Raise ValueError
      | _, _, _ => Raise ValueError
      end
  | _ => Raise ValueError
  end.

Definition utc_strptime_date (s : string) : res datetime :=
  (ymd <- parse_date s ;;
   let '(y, m, d) := ymd in
   datetime_of_seconds (civil_to_days y m d * 86400))%res.

(** Dates only; [fromisoformat] also reads times, which this platform
    rejects. *)
Definition utc_isoformat_timestamp (v : value) : res Z :=
  match v with
  | VStr s =>
      (ymd <- parse_date s ;;
       let '(y, m, d) := ymd in Ok (civil_to_days y m d * 86400))%res
  | _ => Raise TypeError
  end.

(** The clock of this platform stands at 2023-11-14 22:13:20. *)
Definition utc_now : Z := 1700000000.

Definition utc_time_of_day_timestamp (v : value) : res Z :=
  match v with
  | VStr s =>
      match list_ascii_of_string s with
      | [h1; h2; s1; m1; m2; s2; c1; c2] =>
          match number [h1; h2] 0, number [m1; m2] 0, number [c1; c2] 0 with
          | Some h, Some m, Some c =>
              if Ascii.eqb s1 colon && Ascii.eqb s2 colon
                 && (h <? 24) && (m <? 60) && (c <? 62)
              then Ok (utc_now / 86400 * 86400 + h * 3600 + m * 60 + c)
              else Raise ValueError
          | _, _, _ => Raise ValueError
          end
      | _ => Raise ValueError
      end
  | _ => Raise TypeError
  end.

Definition utc_date_after (n : Z) : res string :=
  (t <- datetime_of_seconds (utc_now + n * 86400) ;; Ok (strftime_date t))%res.

(** [str(x)] for strings, [None], booleans and whole numbers; another number
    is shown as its integer part, a list or dictionary as a bracket pair. *)
Definition utc_py_str (v : value) : string :=
  match v with
  | VNone => "None"
  | VBool true => "True"
  | VBool false => "False"
  | VNum q => DecimalString.NilZero.string_of_int (Z.to_int (Qfloor q))
  | VStr s => s
  | VList _ => "[]"
  | VDict _ => "{}"
  end.

(** Iteration in the order of first occurrence. *)
Fixpoint first_occurrences (l : list value) : list value :=
  match l with
  | [] => []
  | x :: rest => x :: filter (fun y => negb (hash_eq x y)) (first_occurrences rest)
  end.

End Utc.

Lemma mem_filter (f : value -> bool) (x : value) (s : list value) :
  mem x (filter f s) = true -> mem x s = true.
Proof.
  rewrite !mem_spec. intros (y & Hy & E). apply filter_In in Hy. exists y. tauto.
Qed.

Lemma nodup_eq_filter (f : value -> bool) (s : list value) :
  nodup_eq s = true -> nodup_eq (filter f s) = true.
Proof.
  induction s as [| a s IH]; simpl; trivial.
  intros H. apply andb_true_iff in H as [Ha Hs].
  destruct (f a); simpl; auto.
  rewrite (IH Hs), andb_true_r.
  destruct (mem a (filter f s)) eqn:E; trivial.
  apply mem_filter in E. rewrite E in Ha. discriminate Ha.
Qed.

Lemma first_occurrences_In (l : list value) (y : value) :
  In y (Utc.first_occurrences l) -> In y l.
Proof.
  induction l as [| a l IH]; simpl; trivial.
  intros [H | H]; [ auto | ]. apply filter_In in H. tauto.
Qed.

Lemma first_occurrences_nodup (l : list value) :
  nodup_eq (Utc.first_occurrences l) = true.
Proof.
  induction l as [| a l IH]; simpl; trivial.
  rewrite (nodup_eq_filter _ _ IH), andb_true_r.
  destruct (mem a (filter _ (Utc.first_occurrences l))) eqn:E; trivial.
  apply mem_spec in E as (y & Hy & E). apply filter_In in Hy as [_ Hy].
  rewrite E in Hy. discriminate Hy.
Qed.

Lemma first_occurrences_mem (l : list value) (x : value) :
  forallb hashable l = true -> In x l -> mem x (Utc.first_occurrences l) = true.
Proof.
  induction l as [| a l IH]; simpl; [ intros _ [] | ].
  intros H. apply andb_true_iff in H as [Ha Hl].
  intros [-> | Hx].
  - now rewrite hash_eq_refl.
  - destruct (hash_eq x a) eqn:E; simpl; trivial.
    apply mem_spec in IH as (y & Hy & Exy); trivial.
    apply mem_spec. exists y. split; trivial.
    apply filter_In. split; trivial.
    destruct (hash_eq a y) eqn:Eay; trivial.
    rewrite hash_eq_sym in Eay.
    rewrite (hash_eq_trans _ _ _ Exy Eay) in E. discriminate E.
Qed.

(** The first occurrences of any list with the same items as [l] are one of
    the orders in which [set(l)] may be iterated. *)
Lemma first_occurrences_set (l l' : list value) :
  (forall x, In x l <-> In x l') ->
  forallb hashable l = true ->
  is_set_of l (Utc.first_occurrences l') = true.
Proof.
  intros Hsame Hh.
  assert (Hh' : forallb hashable l' = true).
  { apply forallb_forall. intros x Hx. apply Hsame in Hx.
    revert x Hx. now apply forallb_forall. }
  unfold is_set_of. rewrite first_occurrences_nodup. simpl.
  apply andb_true_iff. split; apply forallb_forall; intros x Hx.
  - apply first_occurrences_In, Hsame in Hx.
    apply mem_spec. exists x. split; trivial.
    apply hash_eq_refl. revert x Hx. now apply forallb_forall.
  - apply first_occurrences_mem; trivial. now apply Hsame.
Qed.

(** The platform with a given network: UTC clock and calendar, sets iterated
    in the order of first occurrence. *)
Definition utc_platform (net : list request -> request -> option response) : platform :=
  {| network := net;
     now_timestamp := Utc.utc_now;
     now_isoformat := "2023-11-14T22:13:20";
     now_display := "2023-11-14 22:13:20";
     date_after := Utc.utc_date_after;
     isoformat_timestamp := Utc.utc_isoformat_timestamp;
     time_of_day_timestamp := Utc.utc_time_of_day_timestamp;
     fromtimestamp := Utc.utc_fromtimestamp;
     strptime_date := Utc.utc_strptime_date;
     py_str := Utc.utc_py_str;
     set_iter := Utc.first_occurrences;
     set_iter_spec := fun l => first_occurrences_set l l (fun x => iff_refl _) |}.

(** The same platform with sets iterated in the order of last occurrence,
    latest first: another order the hashes may produce. *)
Definition utc_platform_rev (net : list request -> request -> option response)
  : platform :=
  {| network := net;
     now_timestamp := Utc.utc_now;
     now_isoformat := "2023-11-14T22:13:20";
     now_display := "2023-11-14 22:13:20";
     date_after := Utc.utc_date_after;
     isoformat_timestamp := Utc.utc_isoformat_timestamp;
     time_of_day_timestamp := Utc.utc_time_of_day_timestamp;
     fromtimestamp := Utc.utc_fromtimestamp;
     strptime_date := Utc.utc_strptime_date;
     py_str := Utc.utc_py_str;
     set_iter := fun l => Utc.first_occurrences (rev l);
     set_iter_spec := fun l => first_occurrences_set l (rev l) (fun x => in_rev l x) |}.

(** A network on which nothing answers. *)
Definition offline : list request -> request -> option response :=
  fun _ _ => None.

(** ** Worked examples for the current-conditions path *)

(** London: the primary provider answers 500, the secondary a reading with
    temperature 15. *)
Definition london_owm_reading : list (string * value) :=
  [ ("name", VStr "London");
    ("main", VDict [ ("temp", VNum 15); ("feels_like", VNum (143 # 10));
                     ("pressure", VNum 1012); ("humidity", VNum 81) ]);
    ("weather", VList [ VDict [ ("main", VStr "Clouds");
                                ("description", VStr "broken clouds") ] ]);
    ("wind", VDict [ ("speed", VNum (41 # 10)); ("deg", VNum 240) ]);
    ("visibility", VNum 10000);
    ("sys", VDict [ ("country", VStr "GB");
                    ("sunrise", VNum 1699945200); ("sunset", VNum 1699978200) ]) ].

Definition london_network : list request -> request -> option response :=
  fun _ req =>
    if str_in "visualcrossing" (url req)
    then Some {| status_code := 500; body := None |}
    else Some {| status_code := 200; body := Some (VDict london_owm_reading) |}.

(** The reading of the secondary provider comes back: temperature 15, tagged
    "openweathermap". *)
Lemma get_current_weather_fallback_witness :
  exists reading,
    fst (get_current_weather (utc_platform london_network) "vc-key" "owm-key"
           "London" "metric" []) = Ok (VDict reading) /\
    assoc "source" reading = Some (VStr "openweathermap") /\
    (main <- getitem (VDict reading) "main" ;; getitem main "temp")%res
    = Ok (VNum 15).
Proof.
  pose proof (get_current_weather_fallback (utc_platform london_network)
                "vc-key" "owm-key" "London" "metric" []) as H.
  cbv zeta in H.
  destruct H as (_ & _ & _ & _ & _ & H).
  destruct (H {| status_code := 500; body := None |} london_owm_reading
              eq_refl ltac:(simpl; lia)
              eq_refl)
    as (reading & H1 & H2 & H3).
  exists reading. split; [ exact H1 | ]. split; [ exact H2 | ].
  change (getitem (VDict reading) "main")
    with (match assoc "main" reading with
          | Some v => Ok v
          | None => @Raise value KeyError
          end).
  rewrite (H3 "main" eq_refl). reflexivity.
Defined.

(** A primary provider that answers with the empty JSON object still gives
    a record (every field at its default), so the secondary is not asked. *)
Definition empty_primary_network : list request -> request -> option response :=
  fun _ req =>
    if str_in "visualcrossing" (url req)
    then Some {| status_code := 200; body := Some (VDict []) |}
    else Some {| status_code := 200; body := Some (VDict london_owm_reading) |}.

Example empty_primary_document_is_a_reading :
  exists reading,
    get_current_weather (utc_platform empty_primary_network) "vc-key" "owm-key"
      "London" "metric" []
    = (Ok reading, [ vc_current_request "vc-key" "London" "metric" ]) /\
    getitem reading "source" = Ok (VStr "visual_crossing") /\
    (main <- getitem reading "main" ;; getitem main "temp")%res = Ok (VNum 0).
Proof.
  eexists. split; [ vm_compute; reflexivity | ].
  split; vm_compute; reflexivity.
Qed.

(** A Visual Crossing document for London, 20 degrees, 29.92 inHg. *)
Definition london_vc_document : value :=
  VDict [ ("resolvedAddress", VStr "London, England, United Kingdom");
          ("currentConditions",
           VDict [ ("temp", VNum 20); ("feelslike", VNum (193 # 10));
                   ("humidity", VNum (783 # 10)); ("pressure", VNum (2992 # 100));
                   ("conditions", VStr "Partially cloudy");
                   ("icon", VStr "partly-cloudy-day");
                   ("windspeed", VNum (126 # 10)); ("winddir", VNum 230);
                   ("visibility", VNum 10);
                   ("sunrise", VStr "07:12:40"); ("sunset", VStr "16:13:05");
                   ("tempmin", VNum 11); ("tempmax", VNum 21) ]) ].


(** ** Alerts *)

Section AlertFacts.

Variable pf : platform.
Variables vc_key owm_key : string.

(** The [try] block of [_get_city_coordinates], after the document arrived. *)
Definition coordinates_of (data : value) : res (option (value * value)) :=
  if truthy data then
    (first <- getitem0 data ;;
     lat <- getitem first "lat" ;;
     first' <- getitem0 data ;;
     lon <- getitem first' "lon" ;;
     Ok (Some (lat, lon)))%res
  else Ok None.

Definition coordinates_result (city : string) (log : list request)
  : option (value * value) :=
  try_except
    (data <- reply_json (network pf log (geocoding_request owm_key city)) ;;
     coordinates_of data)%res
    None.

Definition owm_alerts_result (lat lon : value) (log : list request) : list value :=
  try_except
    (data <- reply_json (network pf log (owm_alerts_request owm_key lat lon)) ;;
     owm_derived_alerts pf data)%res
    [].

Definition vc_alerts_result (city : string) (log : list request) : list value :=
  try_except
    (data <- reply_json (network pf log (vc_alerts_request vc_key city)) ;;
     vc_native_alerts pf data)%res
    [].

Lemma coordinates_run (city : string) (log : list request) :
  _get_city_coordinates pf owm_key city log
  = (Ok (coordinates_result city log),
     (log ++ [geocoding_request owm_key city])%list).
Proof.
  unfold _get_city_coordinates, try_io, bind, coordinates_result, coordinates_of.
  rewrite fetch_json_run.
  destruct (reply_json _) as [data | e]; simpl; [ | reflexivity ].
  destruct (truthy data); [ | reflexivity ].
  unfold lift. destruct (rbind _ _); reflexivity.
Qed.

Lemma owm_alerts_run (lat lon : value) (log : list request) :
  _get_owm_alerts pf owm_key lat lon log
  = (Ok (owm_alerts_result lat lon log),
     (log ++ [owm_alerts_request owm_key lat lon])%list).
Proof. apply guarded_call_run. Qed.

Lemma vc_alerts_run (city : string) (log : list request) :
  _get_vc_alerts pf vc_key city log
  = (Ok (vc_alerts_result city log),
     (log ++ [vc_alerts_request vc_key city])%list).
Proof. apply guarded_call_run. Qed.

Lemma get_weather_alerts_run (city : string) (log : list request) :
  let log1 := (log ++ [geocoding_request owm_key city])%list in
  get_weather_alerts pf vc_key owm_key city log
  = match coordinates_result city log with
    | None => (Ok [], log1)
    | Some (lat, lon) =>
        let log2 := (log1 ++ [owm_alerts_request owm_key lat lon])%list in
        (Ok (owm_alerts_result lat lon log1 ++ vc_alerts_result city log2)%list,
         (log2 ++ [vc_alerts_request vc_key city])%list)
    end.
Proof.
  unfold get_weather_alerts, try_io at 1, bind at 1. rewrite coordinates_run.
  destruct (coordinates_result city log) as [[lat lon] |]; [ | reflexivity ].
  unfold try_io at 1, bind at 1. rewrite owm_alerts_run.
  unfold try_io, bind. rewrite vc_alerts_run. reflexivity.
Qed.

(** C8, as the code has it.  [get_weather_alerts] always ends with a list.
    When geocoding raises or finds no place, the list is empty and neither
    provider is asked.  Otherwise both providers are asked, in this order:
    the alerts derived from OpenWeatherMap, then the native alerts of Visual
    Crossing; the result is the concatenation of the two parts, a part whose
    call raises is empty and the other part is kept; when both raise the
    result is empty. *)
Theorem get_weather_alerts_never_raises (city : string) (log : list request) :
  let geo := geocoding_request owm_key city in
  let log1 := (log ++ [geo])%list in
  exists alerts log',
    get_weather_alerts pf vc_key owm_key city log = (Ok alerts, log') /\
    ((exists e, (data <- reply_json (network pf log geo) ;;
                 coordinates_of data)%res = Raise e) ->
     alerts = [] /\ log' = log1) /\
    ((data <- reply_json (network pf log geo) ;; coordinates_of data)%res = Ok None ->
     alerts = [] /\ log' = log1) /\
    (forall lat lon,
       (data <- reply_json (network pf log geo) ;;
        coordinates_of data)%res = Ok (Some (lat, lon)) ->
       let owm_request := owm_alerts_request owm_key lat lon in
       let log2 := (log1 ++ [owm_request])%list in
       let vc_request := vc_alerts_request vc_key city in
       let owm_part := owm_alerts_result lat lon log1 in
       let vc_part := vc_alerts_result city log2 in
       log' = (log2 ++ [vc_request])%list /\
       alerts = (owm_part ++ vc_part)%list /\
       _get_owm_alerts pf owm_key lat lon log1 = (Ok owm_part, log2) /\
       _get_vc_alerts pf vc_key city log2 = (Ok vc_part, log') /\
       ((exists e, (data <- reply_json (network pf log1 owm_request) ;;
                    owm_derived_alerts pf data)%res = Raise e) ->
        alerts = vc_part) /\
       ((exists e, (data <- reply_json (network pf log2 vc_request) ;;
                    vc_native_alerts pf data)%res = Raise e) ->
        alerts = owm_part) /\
       ((exists e, (data <- reply_json (network pf log1 owm_request) ;;
                    owm_derived_alerts pf data)%res = Raise e) ->
        (exists e, (data <- reply_json (network pf log2 vc_request) ;;
                    vc_native_alerts pf data)%res = Raise e) ->
        alerts = [])).
Proof.
  intros geo log1.
  pose proof (get_weather_alerts_run city log) as Hrun. cbv zeta in Hrun.
  fold geo log1 in Hrun.
  unfold coordinates_result in Hrun. fold geo in Hrun.
  destruct (data <- reply_json (network pf log geo) ;; coordinates_of data)%res
    as [[[lat lon] |] | e] eqn:E; simpl in Hrun.
  - eexists _, _. split; [ exact Hrun | ].
    split; [ intros [e He]; discriminate He | ].
    split; [ discriminate | ].
    intros lat' lon' H. injection H as <- <-.
    intros owm_request log2 vc_request owm_part vc_part.
    split; [ reflexivity | ]. split; [ reflexivity | ].
    split; [ apply owm_alerts_run | ]. split; [ apply vc_alerts_run | ].
    assert (Ho : (exists e, (data <- reply_json (network pf log1 owm_request) ;;
                             owm_derived_alerts pf data)%res = Raise e) ->
                 owm_part = []).
    { intros [e He]. unfold owm_part, owm_alerts_result. fold owm_request.
      now rewrite He. }
    assert (Hv : (exists e, (data <- reply_json (network pf log2 vc_request) ;;
                             vc_native_alerts pf data)%res = Raise e) ->
                 vc_part = []).
    { intros [e He]. unfold vc_part, vc_alerts_result. fold vc_request.
      now rewrite He. }
    split; [ intros H; change ((owm_part ++ vc_part)%list = vc_part);
             now rewrite (Ho H) | ].
    split; [ intros H; change ((owm_part ++ vc_part)%list = owm_part);
             rewrite (Hv H); apply app_nil_r | ].
    intros H1 H2. change ((owm_part ++ vc_part)%list = []).
    now rewrite (Ho H1), (Hv H2).
  - eexists _, _. split; [ exact Hrun | ].
    split; [ auto | ]. split; [ auto | ]. discriminate.
  - eexists _, _. split; [ exact Hrun | ].
    split; [ auto | ]. split; [ auto | ]. discriminate.
Qed.

End AlertFacts.

(** Miami under a hurricane warning.  Visual Crossing reports the warning;
    the first network has no geocoding service, on the second geocoding works
    and the OpenWeatherMap weather endpoint answers 500. *)
Definition hurricane_document : value :=
  VDict [ ("alerts",
           VList [ VDict [ ("event", VStr "Hurricane Warning");
                           ("severity", VStr "Extreme");
                           ("onset", VStr "2023-11-14T18:00:00");
                           ("expires", VStr "2023-11-15T18:00:00") ] ]) ].

Definition hurricane_alert : value :=
  VDict [ ("event", VStr "Hurricane Warning");
          ("description", VStr "Weather alert in effect");
          ("severity", VStr "Extreme");
          ("start", VStr "2023-11-14T18:00:00");
          ("end", VStr "2023-11-15T18:00:00");
          ("source", VStr "Visual Crossing") ].

Definition network_without_geocoding : list request -> request -> option response :=
  fun _ req =>
    if str_in "/geo/" (url req) then None
    else if str_in "visualcrossing" (url req)
         then Some {| status_code := 200; body := Some hurricane_document |}
         else Some {| status_code := 500; body := None |}.

Definition network_without_weather : list request -> request -> option response :=
  fun _ req =>
    if str_in "/geo/" (url req)
    then Some {| status_code := 200;
                 body := Some (VList [ VDict [ ("name", VStr "Miami");
                                               ("lat", VNum (257617 # 10000));
                                               ("lon", VNum (-801918 # 10000)) ] ]) |}
    else if str_in "visualcrossing" (url req)
         then Some {| status_code := 200; body := Some hurricane_document |}
         else Some {| status_code := 500; body := None |}.

(** C8 as stated fails: when geocoding raises, processing does not go on to
    the providers.  Visual Crossing would have delivered the warning, yet the
    only request is the geocoding request and the result is empty. *)
Lemma geocoding_error_ends_alert_processing :
  get_weather_alerts (utc_platform network_without_geocoding) "vc-key" "owm-key"
    "Miami" []
  = (Ok [], [geocoding_request "owm-key" "Miami"]) /\
  fst (_get_vc_alerts (utc_platform network_without_geocoding) "vc-key" "Miami"
         [geocoding_request "owm-key" "Miami"])
  = Ok [hurricane_alert].
Proof. split; reflexivity. Qed.

(** With OpenWeatherMap's weather endpoint failing, the warning of Visual
    Crossing is still returned. *)
Lemma get_weather_alerts_never_raises_witness :
  fst (get_weather_alerts (utc_platform network_without_weather) "vc-key" "owm-key"
         "Miami" [])
  = Ok [hurricane_alert].
Proof.
  pose proof (get_weather_alerts_never_raises
                (utc_platform network_without_weather) "vc-key" "owm-key" "Miami" [])
    as H.
  cbv zeta in H.
  destruct H as (alerts & log' & Hrun & _ & _ & H).
  destruct (H (VNum (257617 # 10000)) (VNum (-801918 # 10000)) eq_refl)
    as (_ & _ & _ & _ & Howm & _).
  rewrite Hrun. simpl.
  rewrite (Howm (ex_intro _ HTTPError eq_refl)). reflexivity.
Defined.

(** ** Lists of outcomes *)

Lemma rmap_Forall2 {A B} (f : A -> res B) (l : list A) (ys : list B) :
  rmap f l = Ok ys <-> Forall2 (fun x y => f x = Ok y) l ys.
Proof.
  revert ys. induction l as [| x l IH]; intros ys; simpl.
  - split.
    + intros H. injection H as <-. constructor.
    + intros H. inversion H. reflexivity.
  - split.
    + destruct (f x) as [y |] eqn:E; [ | discriminate ].
      destruct (rmap f l) as [ys' |]; [ | discriminate ].
      intros H. injection H as <-. constructor; [ exact E | now apply IH ].
    + intros H. inversion H as [| ? y ? ys' Hy Hys]; subst.
      rewrite Hy. apply IH in Hys. now rewrite Hys.
Qed.

Lemma rmap_length {A B} (f : A -> res B) (l : list A) (ys : list B) :
  rmap f l = Ok ys -> List.length ys = List.length l.
Proof.
  intros H. apply rmap_Forall2 in H.
  induction H; simpl; congruence.
Qed.

Lemma rmap_raise_In {A B} (f : A -> res B) (l : list A) (x : A) (e : exn) :
  In x l -> f x = Raise e -> exists e', rmap f l = Raise e'.
Proof.
  induction l as [| a l IH]; simpl; [ intros [] | ].
  intros [-> | Hx] He.
  - rewrite He. eauto.
  - destruct (f a); [ | eauto ].
    destruct (IH Hx He) as [e' ->]. eauto.
Qed.

Lemma rmap_raise_inv {A B} (f : A -> res B) (l : list A) (e : exn) :
  rmap f l = Raise e -> exists x, In x l /\ f x = Raise e.
Proof.
  induction l as [| a l IH]; simpl; [ discriminate | ].
  destruct (f a) as [y |] eqn:E.
  - destruct (rmap f l) as [ys |]; [ discriminate | ].
    intros H. injection H as ->. destruct (IH eq_refl) as (x & Hx & He). eauto.
  - intros H. injection H as ->. eauto.
Qed.





(** ** Least, greatest and sum of a list of numbers *)

Lemma min_loop_spec (rest : list Q) (best : Q) :
  In (min_loop best rest) (best :: rest) /\
  forall y, In y (best :: rest) -> min_loop best rest <= y.
Proof.
  revert best. induction rest as [| x rest IH]; intros best; simpl.
  - split; [ auto | ]. intros y [<- | []]. apply Qle_refl.
  - destruct (IH (if Qlt_le_dec x best then x else best)) as [Hin Hle].
    split.
    + destruct Hin as [H | H]; [ | auto ].
      rewrite <- H. destruct (Qlt_le_dec x best); auto.
    + intros y Hy.
      assert (Hb : (if Qlt_le_dec x best then x else best) <= best
                   /\ (if Qlt_le_dec x best then x else best) <= x).
      { destruct (Qlt_le_dec x best); split;
          auto using Qle_refl, Qlt_le_weak. }
      destruct Hy as [<- | [<- | Hy]].
      * eapply Qle_trans; [ apply Hle; now left | tauto ].
      * eapply Qle_trans; [ apply Hle; now left | tauto ].
      * apply Hle. now right.
Qed.

Lemma maxq_loop_spec (rest : list Q) (best : Q) :
  In (maxq_loop best rest) (best :: rest) /\
  forall y, In y (best :: rest) -> y <= maxq_loop best rest.
Proof.
  revert best. induction rest as [| x rest IH]; intros best; simpl.
  - split; [ auto | ]. intros y [<- | []]. apply Qle_refl.
  - destruct (IH (if Qlt_le_dec best x then x else best)) as [Hin Hle].
    split.
    + destruct Hin as [H | H]; [ | auto ].
      rewrite <- H. destruct (Qlt_le_dec best x); auto.
    + intros y Hy.
      assert (Hb : best <= (if Qlt_le_dec best x then x else best)
                   /\ x <= (if Qlt_le_dec best x then x else best)).
      { destruct (Qlt_le_dec best x); split;
          auto using Qle_refl, Qlt_le_weak. }
      destruct Hy as [<- | [<- | Hy]].
      * eapply Qle_trans; [ | apply Hle; now left ]. tauto.
      * eapply Qle_trans; [ | apply Hle; now left ]. tauto.
      * apply Hle. now right.
Qed.

Lemma py_min_le_py_max (l : list Q) (lo hi : Q) :
  py_min l = Ok lo -> py_max l = Ok hi -> lo <= hi.
Proof.
  destruct l as [| x rest]; simpl; [ discriminate | ].
  intros H1 H2. injection H1 as <-. injection H2 as <-.
  eapply Qle_trans.
  - apply (proj2 (min_loop_spec rest x)). now left.
  - apply (proj2 (maxq_loop_spec rest x)). now left.
Qed.





(** ** A day's samples, each taken twice *)






(** ** The representative description of a day *)

Lemma max_loop_spec (key : value -> nat) (rest before mid : list value) (best : value) :
  (forall y, In y before -> (key y < key best)%nat) ->
  (forall y, In y mid -> (key y <= key best)%nat) ->
  exists before' after',
    (before ++ best :: mid ++ rest)%list
    = (before' ++ max_loop key best rest :: after')%list /\
    (forall y, In y before' -> (key y < key (max_loop key best rest))%nat) /\
    (forall y, In y after' -> (key y <= key (max_loop key best rest))%nat).
Proof.
  revert before mid best.
  induction rest as [| x rest IH]; intros before mid best Hb Hm; simpl.
  - exists before, mid. rewrite app_nil_r. auto.
  - destruct (key best <? key x)%nat eqn:E.
    + apply Nat.ltb_lt in E.
      destruct (IH (before ++ best :: mid)%list [] x) as (b' & a' & Heq & H1 & H2).
      * intros y Hy. apply in_app_or in Hy as [Hy | [<- | Hy]].
        -- specialize (Hb y Hy). lia.
        -- exact E.
        -- specialize (Hm y Hy). lia.
      * intros y [].
      * exists b', a'. split; [ | auto ].
        rewrite <- Heq. rewrite <- app_assoc. reflexivity.
    + apply Nat.ltb_ge in E.
      destruct (IH before (mid ++ [x])%list best) as (b' & a' & Heq & H1 & H2).
      * exact Hb.
      * intros y Hy. apply in_app_or in Hy as [Hy | [<- | []]]; auto.
      * exists b', a'. split; [ | auto ].
        rewrite <- Heq. rewrite <- app_assoc. reflexivity.
Qed.

Section Representative.

Variable pf : platform.

Lemma set_iter_covers (l : list value) (x : value) :
  forallb hashable l = true -> In x l ->
  exists y, In y (set_iter pf l) /\ hash_eq x y = true.
Proof.
  intros Hh Hx. pose proof (set_iter_spec pf l Hh) as H.
  unfold is_set_of in H. apply andb_true_iff in H as [_ H].
  apply mem_spec. revert x Hx. now apply forallb_forall.
Qed.

Lemma set_iter_from (l : list value) (y : value) :
  forallb hashable l = true -> In y (set_iter pf l) ->
  exists x, In x l /\ hash_eq y x = true.
Proof.
  intros Hh Hy. pose proof (set_iter_spec pf l Hh) as H.
  unfold is_set_of in H. apply andb_true_iff in H as [H _].
  apply andb_true_iff in H as [_ H].
  apply mem_spec. revert y Hy. now apply forallb_forall.
Qed.


(** What [max(set(descriptions), key=descriptions.count)] returns: an item
    of the set that no item of the list outnumbers, and the first such item
    in the iteration order of the set. *)
Lemma most_frequent_spec (l : list value) (d : value) :
  most_frequent pf l = Ok d ->
  (exists before after,
     set_iter pf l = (before ++ d :: after)%list /\
     forall y, In y before -> (count y l < count d l)%nat) /\
  (forall y, In y l -> (count y l <= count d l)%nat) /\
  (exists x, In x l /\ hash_eq d x = true).
Proof.
  unfold most_frequent, py_set.
  destruct (forallb hashable l) eqn:Hh; simpl; [ | discriminate ].
  destruct (set_iter pf l) as [| s0 rest] eqn:Es; simpl; [ discriminate | ].
  intros H. injection H as <-.
  destruct (max_loop_spec (fun d => count d l) rest [] [] s0)
    as (before & after & Heq & Hb & Ha); try (intros y []).
  simpl in Heq.
  assert (Hin : In (max_loop (fun d => count d l) s0 rest) (set_iter pf l)).
  { rewrite Es, Heq. apply in_or_app. right. now left. }
  split; [ exists before, after; auto | ].
  split.
  - intros y Hy.
    destruct (set_iter_covers l y Hh Hy) as (z & Hz & Eyz).
    rewrite (count_hash_eq y z l Eyz).
    rewrite Es, Heq in Hz. apply in_app_or in Hz as [Hz | [<- | Hz]].
    + specialize (Hb z Hz). simpl in Hb. lia.
    + lia.
    + apply (Ha z Hz).
  - now apply set_iter_from.
Qed.


End Representative.

(** ** Forecast formatting *)


Lemma Forall2_In_r {A B} (R : A -> B -> Prop) (l : list A) (ys : list B) (y : B) :
  Forall2 R l ys -> In y ys -> exists x, In x l /\ R x y.
Proof.
  induction 1 as [| x y' l ys Hxy HF IH]; simpl; [ intros [] | ].
  intros [<- | Hy].
  - exists x. auto.
  - destruct (IH Hy) as (x' & Hx' & HR). exists x'. auto.
Qed.

Lemma list_slice_to_length {A} (n : Z) (l : list A) :
  (0 <= n)%Z -> (List.length (list_slice_to n l) <= Z.to_nat n)%nat.
Proof.
  intros Hn. unfold list_slice_to.
  replace (0 <=? n)%Z with true by (symmetry; now apply Z.leb_le).
  apply firstn_le_length.
Qed.

Section ForecastFacts.

Variable pf : platform.


(** Every entry built by [aggregate_day] has its least temperature below its
    greatest. *)
Lemma aggregate_day_min_le_max (date : string) (day_items : list value)
    (d : forecast_display) :
  aggregate_day pf date day_items = Ok d -> (fd_min_temp d <= fd_max_temp d)%Z.
Proof.
  unfold aggregate_day. intros H. repeat rstep H. injection H as <-. simpl.
  apply py_round_mono. eapply py_min_le_py_max; eassumption.
Qed.

(** C4, as the code has it.  The description of an aggregated day is one of
    the descriptions of the day's samples, and no description of the day is
    more frequent.  Among several most frequent descriptions the one chosen
    is the first in the iteration order of [set(descriptions)], which the
    hashes of the strings fix and the order of the samples does not. *)
Theorem aggregate_day_description (date : string) (day_items : list value)
    (d : forecast_display) :
  aggregate_day pf date day_items = Ok d ->
  exists descriptions,
    rmap description_field day_items = Ok descriptions /\
    (exists x, In x descriptions /\ hash_eq (fd_description d) x = true) /\
    (forall y, In y descriptions ->
       (count y descriptions <= count (fd_description d) descriptions)%nat) /\
    (exists before after,
       set_iter pf descriptions = (before ++ fd_description d :: after)%list /\
       forall y, In y before ->
         (count y descriptions < count (fd_description d) descriptions)%nat).
Proof.
  unfold aggregate_day. intros H. repeat rstep H. injection H as <-. simpl.
  match goal with
  | Hm : most_frequent pf ?l = Ok ?m |- _ =>
      destruct (most_frequent_spec pf l Hm) as (Hfirst & Hmax & Hin);
      exists l; auto
  end.
Qed.

(** The entries [day_loop] adds come from [aggregate_day], one per group at
    most. *)
Lemma day_loop_spec (days : Z) (groups : list (string * list value))
    (acc r : list forecast_display) :
  day_loop pf days groups acc = Ok r ->
  (List.length r <= List.length acc + List.length groups)%nat /\
  forall d, In d r ->
    In d acc \/
    exists date day_items,
      In (date, day_items) groups /\ aggregate_day pf date day_items = Ok d.
Proof.
  revert acc. induction groups as [| [date day_items] groups IH]; intros acc; simpl.
  - intros H. injection H as <-. split; [ lia | auto ].
  - destruct (days <=? Z.of_nat (List.length acc))%Z.
    + intros H. injection H as <-. split; [ lia | auto ].
    + destruct (aggregate_day pf date day_items) as [entry |] eqn:E; simpl;
        [ | discriminate ].
      intros H. destruct (IH _ H) as [Hlen Hfrom]. split.
      * rewrite length_app in Hlen. simpl in Hlen. lia.
      * intros d Hd. destruct (Hfrom d Hd) as [Hacc | (dt' & it' & Hg & Ha)].
        -- apply in_app_or in Hacc as [Hacc | [<- | []]]; [ auto | ].
           right. exists date, day_items. auto.
        -- right. exists dt', it'. auto.
Qed.

Lemma round_value_inv (v : value) (z : Z) :
  round_value v = Ok z -> exists q, as_num v = Ok q /\ z = py_round q.
Proof.
  unfold round_value. destruct (as_num v) as [q |]; simpl; [ | discriminate ].
  intros H. injection H as <-. eauto.
Qed.

Lemma round1_value_inv (v : value) (r : Q) :
  round1_value v = Ok r -> exists q, as_num v = Ok q /\ r = py_round1 q.
Proof.
  unfold round1_value. destruct (as_num v) as [q |]; simpl; [ | discriminate ].
  intros H. injection H as <-. eauto.
Qed.

(** The entry of a Visual Crossing item carries the rounded [temp_min] and
    [temp_max] of the item. *)
Lemma vc_day_display_temps (item : value) (d : forecast_display) :
  vc_day_display pf item = Ok d ->
  exists lo hi,
    main_field "temp_min" item = Ok lo /\
    main_field "temp_max" item = Ok hi /\
    fd_min_temp d = py_round lo /\
    fd_max_temp d = py_round hi.
Proof.
  unfold vc_day_display, main_field. intros H.
  repeat rstep H. injection H as <-. simpl.
  match goal with
  | Hmain : getitem item "main" = Ok ?m,
    Hlo : getitem ?m "temp_min" = Ok ?vlo, Rlo : round_value ?vlo = Ok _,
    Hhi : getitem ?m "temp_max" = Ok ?vhi, Rhi : round_value ?vhi = Ok _ |- _ =>
      destruct (round_value_inv _ Rlo) as (lo & Nlo & ->);
      destruct (round_value_inv _ Rhi) as (hi & Nhi & ->);
      exists lo, hi; rewrite Hlo, Hhi; cbn [rbind]; auto
  end.
Qed.

(** C3, as the code has it.  With a day count of 10 the formatted forecast
    has at most 10 entries.  When the data do not come from Visual Crossing,
    every entry has [min_temp <= max_temp].  An entry made from Visual
    Crossing data carries the rounded [temp_min] and [temp_max] of its item
    as they are, so there [min_temp <= max_temp] holds whenever the item has
    [temp_min <= temp_max]. *)
Theorem format_forecast_data_bounds (forecast_data : value) :
  let forecasts := format_forecast_data pf forecast_data 10 in
  (List.length forecasts <= 10)%nat /\
  (forall source,
     dict_get forecast_data "source" VNone = Ok source ->
     hash_eq source (VStr "visual_crossing") = false ->
     forall d, In d forecasts -> (fd_min_temp d <= fd_max_temp d)%Z) /\
  (forall source,
     dict_get forecast_data "source" VNone = Ok source ->
     hash_eq source (VStr "visual_crossing") = true ->
     forall d, In d forecasts ->
     exists item lo hi,
       vc_day_display pf item = Ok d /\
       main_field "temp_min" item = Ok lo /\
       main_field "temp_max" item = Ok hi /\
       fd_min_temp d = py_round lo /\
       fd_max_temp d = py_round hi /\
       (lo <= hi -> (fd_min_temp d <= fd_max_temp d)%Z)).
Proof.
  intros forecasts. unfold forecasts, format_forecast_data.
  destruct (negb (truthy forecast_data)).
  { split; [ simpl; lia | ]. split; intros ? ? ? ? []. }
  unfold forecast_display_of.
  destruct (dict_get forecast_data "list" (VList [])) as [forecast_list | e];
    simpl rbind; [ | split; [ simpl; lia | split; intros ? ? ? ? [] ] ].
  destruct (dict_get forecast_data "source" VNone) as [src | e];
    simpl rbind; [ | split; [ simpl; lia | split; intros ? ? ? ? [] ] ].
  destruct (hash_eq src (VStr "visual_crossing")) eqn:Esrc.
  - (* Visual Crossing: one entry per item of the slice *)
    destruct (iterate_slice_to 10 forecast_list) as [items | e] eqn:Eit;
      simpl rbind; [ | split; [ simpl; lia | split; intros ? ? ? ? [] ] ].
    destruct (rmap (vc_day_display pf) items) as [r | e] eqn:Er;
      simpl try_except; [ | split; [ simpl; lia | split; intros ? ? ? ? [] ] ].
    split; [ | split ].
    + rewrite (rmap_length _ _ Er).
      destruct forecast_list; try discriminate Eit; injection Eit as <-;
        apply (@list_slice_to_length value 10); lia.
    + intros source H. injection H as <-. congruence.
    + intros source _ _ d Hd.
      apply rmap_Forall2 in Er.
      destruct (@Forall2_In_r _ _ _ _ _ d Er Hd) as (item & _ & Hitem).
      destruct (vc_day_display_temps _ Hitem) as (lo & hi & Hlo & Hhi & E1 & E2).
      exists item, lo, hi. repeat split; trivial.
      intros Hle. rewrite E1, E2. now apply py_round_mono.
  - (* grouped by date *)
    destruct (iterate forecast_list) as [items | e];
      simpl rbind; [ | split; [ simpl; lia | split; intros ? ? ? ? [] ] ].
    destruct (group_by_date pf items []) as [daily | e];
      simpl rbind; [ | split; [ simpl; lia | split; intros ? ? ? ? [] ] ].
    destruct (day_loop pf 10 (list_slice_to 10 daily) []) as [r | e] eqn:Er;
      simpl try_except; [ | split; [ simpl; lia | split; intros ? ? ? ? [] ] ].
    destruct (day_loop_spec _ _ _ Er) as [Hlen Hfrom].
    split; [ | split ].
    + pose proof (@list_slice_to_length _ 10 daily ltac:(lia)) as Hs.
      simpl in Hlen. simpl Z.to_nat in Hs. lia.
    + intros source _ _ d Hd.
      destruct (Hfrom d Hd) as [[] | (date & day_items & _ & Ha)].
      now apply aggregate_day_min_le_max in Ha.
    + intros source H. injection H as <-. congruence.
Qed.

End ForecastFacts.

(** ** Worked examples for the forecast path *)

(** One three-hourly sample of the OpenWeatherMap forecast. *)
Definition sample (dt : Z) (temp : Q) (description : string)
    (humidity wind pressure pop : Q) : value :=
  VDict [ ("dt", VNum (inject_Z dt));
          ("main", VDict [ ("temp", VNum temp); ("humidity", VNum humidity);
                           ("pressure", VNum pressure) ]);
          ("weather", VList [ VDict [ ("description", VStr description) ] ]);
          ("wind", VDict [ ("speed", VNum wind) ]);
          ("pop", VNum pop) ].

Definition owm_forecast (samples : list value) : value :=
  VDict [ ("cod", VStr "200"); ("list", VList samples);
          ("source", VStr "openweathermap") ].

(** The eight samples of 2023-11-15 (UTC). *)
Definition november_15 : list value :=
  [ sample 1700006400 10 "light rain" 80 (31 # 10) 1012 (4 # 10);
    sample 1700017200 12 "light rain" 78 (36 # 10) 1012 (5 # 10);
    sample 1700028000 14 "clear sky" 70 (42 # 10) 1013 0;
    sample 1700038800 16 "clear sky" 61 (55 # 10) 1013 0;
    sample 1700049600 15 "clear sky" 63 (51 # 10) 1014 0;
    sample 1700060400 13 "few clouds" 69 (40 # 10) 1014 (1 # 10);
    sample 1700071200 11 "light rain" 77 (33 # 10) 1015 (3 # 10);
    sample 1700082000 9 "clear sky" 83 (28 # 10) 1015 0 ].

Example november_15_formatted :
  format_forecast_data (utc_platform offline) (owm_forecast november_15) 10
  = [ {| fd_date := "2023-11-15"; fd_day_name := "Wednesday";
         fd_min_temp := 9; fd_max_temp := 16;
         fd_description := VStr "clear sky";
         fd_humidity := VNum 73;
         fd_wind_speed := 4 # 1; fd_pressure := 1014; fd_pop := 16 |} ].
Proof. vm_compute. reflexivity. Qed.

(** The day of eight samples: one entry, least temperature below greatest. *)
Lemma format_forecast_data_bounds_witness :
  (List.length (format_forecast_data (utc_platform offline)
                  (owm_forecast november_15) 10) <= 10)%nat /\
  Forall (fun d => (fd_min_temp d <= fd_max_temp d)%Z)
    (format_forecast_data (utc_platform offline) (owm_forecast november_15) 10).
Proof.
  pose proof (format_forecast_data_bounds (utc_platform offline)
                (owm_forecast november_15)) as H.
  cbv zeta in H. destruct H as (Hlen & Hgrouped & _).
  split; [ exact Hlen | ].
  apply Forall_forall. intros d Hd.
  exact (Hgrouped (VStr "openweathermap") eq_refl eq_refl d Hd).
Defined.

(** A Visual Crossing document whose only day has [tempmin] above
    [tempmax]. *)
Definition inverted_document : value :=
  VDict [ ("resolvedAddress", VStr "London, England, United Kingdom");
          ("days", VList [ VDict [ ("datetime", VStr "2023-11-15");
                                   ("temp", VNum 4); ("tempmin", VNum 5);
                                   ("tempmax", VNum 3); ("humidity", VNum 80);
                                   ("pressure", VNum (2992 # 100));
                                   ("conditions", VStr "Overcast");
                                   ("icon", VStr "cloudy");
                                   ("windspeed", VNum 12);
                                   ("precipprob", VNum 20) ] ]) ].

(** C3 as stated fails on Visual Crossing data: the day is formatted with
    [min_temp] 5 and [max_temp] 3. *)
Lemma vc_forecast_keeps_provider_extremes :
  exists record,
    vc_forecast_record (utc_platform offline) "London" inverted_document = Ok record /\
    map (fun d => (fd_min_temp d, fd_max_temp d))
        (format_forecast_data (utc_platform offline) record 10)
    = [ (5, 3)%Z ].
Proof.
  eexists. split.
  - vm_compute. reflexivity.
  - vm_compute. reflexivity.
Qed.

(** Two samples of one day with different descriptions, once each. *)
Definition tie_samples : list value :=
  [ sample 1700006400 10 "light rain" 80 (31 # 10) 1012 (4 # 10);
    sample 1700017200 12 "clear sky" 78 (36 # 10) 1012 0 ].

(** C4 as stated fails: on a platform whose sets iterate "clear sky" before
    "light rain" the day gets "clear sky", the description seen second,
    though each description occurs once. *)
Lemma tie_is_broken_by_set_order :
  rmap description_field tie_samples = Ok [ VStr "light rain"; VStr "clear sky" ] /\
  count (VStr "light rain") [ VStr "light rain"; VStr "clear sky" ]
  = count (VStr "clear sky") [ VStr "light rain"; VStr "clear sky" ] /\
  map fd_description
      (format_forecast_data (utc_platform_rev offline) (owm_forecast tie_samples) 10)
  = [ VStr "clear sky" ] /\
  map fd_description
      (format_forecast_data (utc_platform offline) (owm_forecast tie_samples) 10)
  = [ VStr "light rain" ].
Proof. split; [ | split; [ | split ] ]; vm_compute; reflexivity. Qed.

(** On 2023-11-15 "clear sky" occurs four times, more than any other
    description, whatever the order of the set. *)
Lemma aggregate_day_description_witness :
  exists d descriptions,
    aggregate_day (utc_platform_rev offline) "2023-11-15" november_15 = Ok d /\
    rmap description_field november_15 = Ok descriptions /\
    fd_description d = VStr "clear sky" /\
    forall y, In y descriptions ->
      (count y descriptions <= count (fd_description d) descriptions)%nat.
Proof.
  destruct (aggregate_day (utc_platform_rev offline) "2023-11-15" november_15)
    as [d | e] eqn:E; [ | vm_compute in E; discriminate E ].
  destruct (aggregate_day_description _ _ _ E) as (descriptions & Hd & _ & Hmax & _).
  exists d, descriptions.
  split; [ reflexivity | ]. split; [ exact Hd | ]. split; [ | exact Hmax ].
  vm_compute in E. injection E as <-. reflexivity.
Defined.


Example doubled_day_values :
  (d <- aggregate_day (utc_platform offline) "2023-11-15" tie_samples ;;
   Ok (fd_min_temp d, fd_max_temp d, fd_humidity d, fd_wind_speed d,
       fd_pressure d, fd_pop d))%res
  = Ok (10, 12, VNum 79, 17 # 5, 1012, 20)%Z /\
  (d <- aggregate_day (utc_platform offline) "2023-11-15"
          (tie_samples ++ tie_samples)%list ;;
   Ok (fd_min_temp d, fd_max_temp d, fd_humidity d, fd_wind_speed d,
       fd_pressure d, fd_pop d))%res
  = Ok (10, 12, VNum 79, 17 # 5, 1012, 20)%Z.
Proof. split; vm_compute; reflexivity. Qed.

(** ** Formatting current conditions *)

Lemma py_round1_nearest (q : Q) :
  Qabs (py_round1 q - q) <= 1 # 20 /\
  py_round1 q == py_round (q * 10) # 10.
Proof.
  assert (E : py_round1 q == py_round (q * 10) # 10) by apply Qred_correct.
  split; [ | exact E ].
  rewrite E.
  pose proof (py_round_nearest (q * 10)) as H.
  apply Qabs_Qle_condition in H as [H1 H2].
  assert (En : py_round (q * 10) # 10 == inject_Z (py_round (q * 10)) / 10).
  { unfold Qeq, Qdiv, Qmult, Qinv, inject_Z. simpl. lia. }
  rewrite En. apply Qabs_Qle_condition. split.
  - apply Qmult_le_r with (z := 10); [ reflexivity | ].
    field_simplify. field_simplify in H1. lra.
  - apply Qmult_le_r with (z := 10); [ reflexivity | ].
    field_simplify. field_simplify in H2. lra.
Qed.

(** The value of a key, or the default when the key is absent. *)
Definition field_or (kv : list (string * value)) (key : string) (dflt : value) : value :=
  match assoc key kv with
  | Some v => v
  | None => dflt
  end.





Section FormatFacts.

Variable pf : platform.

Lemma format_current_weather_inv (weather_data : value) (d : current_display) :
  format_current_weather pf weather_data = Some d ->
  current_display_of pf weather_data = Ok d.
Proof.
  unfold format_current_weather.
  destruct (negb (truthy weather_data)); [ discriminate | ].
  destruct (current_display_of pf weather_data); simpl; [ | discriminate ].
  intros H. injection H as <-. reflexivity.
Qed.

(** C7, as the code has it.  In the record [format_current_weather] builds,
    temperature, feels-like temperature and pressure are the input values
    (0 when absent) rounded to the nearest integer, a tie going to the even
    one; wind speed is the input value rounded to one decimal place; humidity
    is the input value itself, not rounded. *)
Theorem format_current_weather_rounding (weather_data : value) (d : current_display) :
  format_current_weather pf weather_data = Some d ->
  exists main wind temp feels pressure speed,
    dict_get weather_data "main" (VDict []) = Ok main /\
    dict_get weather_data "wind" (VDict []) = Ok wind /\
    (v <- dict_get main "temp" (VNum 0) ;; as_num v)%res = Ok temp /\
    (v <- dict_get main "feels_like" (VNum 0) ;; as_num v)%res = Ok feels /\
    (v <- dict_get main "pressure" (VNum 0) ;; as_num v)%res = Ok pressure /\
    (v <- dict_get wind "speed" (VNum 0) ;; as_num v)%res = Ok speed /\
    cd_temperature d = py_round temp /\
    Qabs (inject_Z (cd_temperature d) - temp) <= 1 # 2 /\
    cd_feels_like d = py_round feels /\
    Qabs (inject_Z (cd_feels_like d) - feels) <= 1 # 2 /\
    cd_pressure d = py_round pressure /\
    Qabs (inject_Z (cd_pressure d) - pressure) <= 1 # 2 /\
    cd_wind_speed d = py_round1 speed /\
    Qabs (cd_wind_speed d - speed) <= 1 # 20 /\
    (exists tenths : Z, cd_wind_speed d == tenths # 10) /\
    dict_get main "humidity" (VNum 0) = Ok (cd_humidity d).
Proof.
  intros H. apply format_current_weather_inv in H.
  unfold current_display_of in H. repeat rstep H. injection H as <-. simpl.
  match goal with
  | Hm : dict_get weather_data "main" _ = Ok ?m,
    Hw : dict_get weather_data "wind" _ = Ok ?w,
    Ht : dict_get ?m "temp" _ = Ok ?vt, Rt : round_value ?vt = Ok _,
    Hf : dict_get ?m "feels_like" _ = Ok ?vf, Rf : round_value ?vf = Ok _,
    Hp : dict_get ?m "pressure" _ = Ok ?vp, Rp : round_value ?vp = Ok _,
    Hs : dict_get ?w "speed" _ = Ok ?vs, Rs : round1_value ?vs = Ok _,
    Hh : dict_get ?m "humidity" _ = Ok _ |- _ =>
      destruct (round_value_inv _ Rt) as (temp & Nt & ->);
      destruct (round_value_inv _ Rf) as (feels & Nf & ->);
      destruct (round_value_inv _ Rp) as (pressure & Np & ->);
      destruct (round1_value_inv _ Rs) as (speed & Ns & ->);
      exists m, w, temp, feels, pressure, speed;
      rewrite Ht, Hf, Hp, Hs; cbn [rbind]
  end.
  repeat (split; [ first [ reflexivity | assumption | apply py_round_nearest
                         | apply py_round1_nearest ] | ]).
  split; [ exists (py_round (speed * 10)); apply py_round1_nearest | assumption ].
Qed.


End FormatFacts.

(** ** Absent fields *)


Section MissingFields.

Variable pf : platform.





End MissingFields.

(** ** Worked examples for the formatter *)

(** London: 15 stays 15, 14.3 becomes 14, wind speed 4.1 stays 4.1. *)
Lemma format_current_weather_rounding_witness :
  exists d,
    format_current_weather (utc_platform offline) (VDict london_owm_reading) = Some d /\
    cd_temperature d = 15%Z /\
    cd_feels_like d = 14%Z /\
    Qabs (inject_Z (cd_feels_like d) - (143 # 10)) <= 1 # 2 /\
    cd_wind_speed d = (41 # 10) /\
    cd_humidity d = VNum 81.
Proof.
  destruct (format_current_weather (utc_platform offline) (VDict london_owm_reading))
    as [d |] eqn:E; [ | vm_compute in E; discriminate E ].
  destruct (format_current_weather_rounding _ _ E)
    as (main & wind & temp & feels & pressure & speed
        & Hm & Hw & Ht & Hf & Hp & Hs & Etemp & _ & Efeels & Nfeels & _ & _ & Espeed & _ & _ & Hh).
  vm_compute in Hm. injection Hm as <-.
  vm_compute in Hw. injection Hw as <-.
  vm_compute in Ht. injection Ht as <-.
  vm_compute in Hf. injection Hf as <-.
  vm_compute in Hs. injection Hs as <-.
  vm_compute in Hh. injection Hh as Hh.
  exists d. split; [ reflexivity | ].
  split; [ exact Etemp | ]. split; [ exact Efeels | ].
  split; [ exact Nfeels | ]. split; [ exact Espeed | ]. symmetry. exact Hh.
Defined.

(** C7 as stated fails for humidity: the record built from the Visual
    Crossing document of London has humidity 78.3, and the formatted record
    shows 78.3, not 78. *)
Lemma humidity_is_not_rounded :
  exists record d,
    vc_current_record (utc_platform offline) "London" london_vc_document = Ok record /\
    format_current_weather (utc_platform offline) record = Some d /\
    cd_humidity d = VNum (783 # 10) /\
    round_value (cd_humidity d) = Ok 78%Z /\
    Qeq_bool (783 # 10) (inject_Z 78) = false.
Proof.
  eexists. eexists.
  split; [ vm_compute; reflexivity | ].
  split; [ vm_compute; reflexivity | ].
  split; [ vm_compute; reflexivity | ].
  split; vm_compute; reflexivity.
Qed.




(** ** The groups are the calendar dates *)

Section Grouping.

Variable pf : platform.

(** The key under which the grouping loop files an item. *)
Definition date_of (item : value) : res string :=
  (dt <- getitem item "dt" ;;
   t <- fromtimestamp pf dt ;;
   Ok (strftime_date t))%res.

Definition on_date (date : string) (item : value) : bool :=
  match date_of item with
  | Ok d => String.eqb date d
  | Raise _ => false
  end.

(** [daily_data[date]], empty for a date without entry. *)
Fixpoint day_of (date : string) (daily_data : list (string * list value))
  : list value :=
  match daily_data with
  | [] => []
  | (d, items) :: rest => if String.eqb date d then items else day_of date rest
  end.

Lemma day_of_add (date date' : string) (item : value)
    (daily_data : list (string * list value)) :
  day_of date (add_to_day date' item daily_data)
  = if String.eqb date date' then (day_of date daily_data ++ [item])%list
    else day_of date daily_data.
Proof.
  induction daily_data as [| [d items] rest IH]; simpl.
  - destruct (String.eqb date date'); reflexivity.
  - destruct (String.eqb date' d) eqn:E'; simpl.
    + apply String.eqb_eq in E'. subst d.
      destruct (String.eqb date date'); reflexivity.
    + destruct (String.eqb date d) eqn:E; [ | exact IH ].
      apply String.eqb_eq in E. subst d.
      rewrite String.eqb_sym in E'. now rewrite E'.
Qed.

Lemma add_to_day_keys (date : string) (item : value)
    (daily_data : list (string * list value)) :
  NoDup (map fst daily_data) ->
  NoDup (map fst (add_to_day date item daily_data)) /\
  forall d, In d (map fst (add_to_day date item daily_data)) ->
            d = date \/ In d (map fst daily_data).
Proof.
  induction daily_data as [| [d0 items] rest IH]; simpl; intros Hnd.
  - split; [ constructor; [ intros [] | constructor ] | ].
    intros d [<- | []]. now left.
  - inversion Hnd as [| ? ? Hnotin Hrest]; subst.
    destruct (String.eqb date d0) eqn:E; simpl.
    + split; [ exact Hnd | tauto ].
    + destruct (IH Hrest) as [Hnd' Hkeys]. split.
      * constructor; [ | exact Hnd' ].
        intros Hin. destruct (Hkeys _ Hin) as [-> | Hin'].
        -- rewrite String.eqb_refl in E. discriminate E.
        -- contradiction.
      * intros d [-> | Hin]; [ auto | ].
        destruct (Hkeys _ Hin); auto.
Qed.

Lemma day_of_entry (date : string) (items : list value)
    (daily_data : list (string * list value)) :
  NoDup (map fst daily_data) -> In (date, items) daily_data ->
  day_of date daily_data = items.
Proof.
  induction daily_data as [| [d its] rest IH]; simpl; [ intros _ [] | ].
  intros Hnd Hin. inversion Hnd as [| ? ? Hnotin Hrest]; subst.
  destruct Hin as [H | H].
  - injection H as -> ->. now rewrite String.eqb_refl.
  - destruct (String.eqb date d) eqn:E; [ | auto ].
    apply String.eqb_eq in E. subst d. exfalso. apply Hnotin.
    change date with (fst (date, items)). now apply in_map.
Qed.

(** After the grouping loop every date holds the items of that date, in the
    order of the list, and no date occurs twice. *)
Lemma group_by_date_spec (items : list value)
    (acc daily_data : list (string * list value)) :
  group_by_date pf items acc = Ok daily_data ->
  NoDup (map fst acc) ->
  NoDup (map fst daily_data) /\
  forall date,
    day_of date daily_data = (day_of date acc ++ filter (on_date date) items)%list.
Proof.
  revert acc. induction items as [| item rest IH]; intros acc; simpl.
  - intros H Hnd. injection H as <-. split; [ exact Hnd | ].
    intros date. now rewrite app_nil_r.
  - unfold on_date, date_of.
    destruct (getitem item "dt") as [dt |]; simpl; [ | discriminate ].
    destruct (fromtimestamp pf dt) as [t |]; simpl; [ | discriminate ].
    intros H Hnd.
    destruct (IH _ H (proj1 (@add_to_day_keys (strftime_date t) item acc Hnd)))
      as [Hnd' Hday].
    split; [ exact Hnd' | ].
    intros date. rewrite Hday, day_of_add.
    destruct (String.eqb date (strftime_date t)).
    + now rewrite <- app_assoc.
    + reflexivity.
Qed.

Lemma firstn_In {A} (n : nat) (l : list A) (x : A) :
  In x (firstn n l) -> In x l.
Proof.
  intros H. rewrite <- (firstn_skipn n l). apply in_or_app. now left.
Qed.

Lemma list_slice_to_In {A} (n : Z) (l : list A) (x : A) :
  In x (list_slice_to n l) -> In x l.
Proof.
  unfold list_slice_to. destruct (0 <=? n)%Z; apply firstn_In.
Qed.

(** Every entry of a forecast built by grouping is the aggregate of the
    items of one calendar date, all of them, in their order. *)
Lemma format_forecast_data_groups (forecast_data source : value)
    (items : list value) (days : Z) (d : forecast_display) :
  dict_get forecast_data "list" (VList []) = Ok (VList items) ->
  dict_get forecast_data "source" VNone = Ok source ->
  hash_eq source (VStr "visual_crossing") = false ->
  In d (format_forecast_data pf forecast_data days) ->
  exists date,
    aggregate_day pf date (filter (on_date date) items) = Ok d /\
    fd_date d = date.
Proof.
  intros Hlist Hsrc Hnot. unfold format_forecast_data.
  destruct (negb (truthy forecast_data)); [ intros [] | ].
  unfold forecast_display_of. rewrite Hlist, Hsrc. cbn [rbind]. rewrite Hnot.
  cbn [iterate rbind].
  destruct (group_by_date pf items []) as [daily |] eqn:Eg; cbn [rbind];
    [ | intros [] ].
  destruct (day_loop pf days (list_slice_to days daily) []) as [r |] eqn:Er;
    simpl try_except; [ | intros [] ].
  intros Hd.
  destruct (@day_loop_spec pf _ _ _ _ Er) as [_ Hfrom].
  destruct (Hfrom d Hd) as [[] | (date & day_items & Hin & Ha)].
  apply list_slice_to_In in Hin.
  destruct (@group_by_date_spec _ _ _ Eg (NoDup_nil _)) as [Hnd Hday].
  rewrite <- (@day_of_entry _ _ _ Hnd Hin), Hday in Ha. simpl in Ha.
  exists date. split; [ exact Ha | ].
  unfold aggregate_day in Ha. repeat rstep Ha. injection Ha as <-. reflexivity.
Qed.

End Grouping.

(** * Part III: the rest of the service and its callers *)

(** ** The forecast path of the service *)

Section ForecastService.

Variable pf : platform.
Variables vc_key owm_key : string.

(** The [try] block of [_get_vc_forecast] once the end date is known. *)
Definition vc_forecast_result (city units end_date : string) (log : list request)
  : res value :=
  (data <- reply_json (network pf log (vc_forecast_request vc_key city units end_date)) ;;
   vc_forecast_record pf city data)%res.

(** The [try] block of [_get_owm_extended_forecast] once the place is known. *)
Definition owm_forecast_result (lat lon : value) (units : string) (log : list request)
  : res value :=
  (data <- reply_json (network pf log (owm_forecast_request owm_key lat lon units)) ;;
   setitem data "source" (VStr "openweathermap"))%res.

Lemma vc_forecast_run (city : string) (days : Z) (units : string) (log : list request) :
  _get_vc_forecast pf vc_key city days units log
  = match date_after pf (days - 1) with
    | Raise _ => (Ok VNone, log)
    | Ok end_date =>
        (Ok (try_except (vc_forecast_result city units end_date log) VNone),
         (log ++ [vc_forecast_request vc_key city units end_date])%list)
    end.
Proof.
  unfold _get_vc_forecast, try_io, bind at 1, lift at 1.
  destruct (date_after pf (days - 1)) as [end_date | e]; [ | reflexivity ].
  unfold bind. rewrite fetch_json_run. unfold vc_forecast_result.
  destruct (reply_json _) as [data | e]; simpl; [ | reflexivity ].
  unfold lift. destruct (vc_forecast_record pf city data); reflexivity.
Qed.

Lemma owm_extended_forecast_run (city units : string) (log : list request) :
  let log1 := (log ++ [geocoding_request owm_key city])%list in
  _get_owm_extended_forecast pf owm_key city units log
  = match coordinates_result pf owm_key city log with
    | None => (Ok VNone, log1)
    | Some (lat, lon) =>
        (Ok (try_except (owm_forecast_result lat lon units log1) VNone),
         (log1 ++ [owm_forecast_request owm_key lat lon units])%list)
    end.
Proof.
  unfold _get_owm_extended_forecast, try_io, bind at 1. rewrite coordinates_run.
  destruct (coordinates_result pf owm_key city log) as [[lat lon] |]; [ | reflexivity ].
  unfold bind. rewrite fetch_json_run. unfold owm_forecast_result.
  destruct (reply_json _) as [data | e]; simpl; [ | reflexivity ].
  unfold lift. destruct (setitem data "source" _); reflexivity.
Qed.

(** What [vc_forecast_record] builds, when it builds something. *)
Lemma vc_forecast_record_inv (city : string) (data record : value) :
  vc_forecast_record pf city data = Ok record ->
  exists days_field days items alerts,
    dict_get data "days" (VList []) = Ok days_field /\
    iterate days_field = Ok days /\
    rmap (vc_forecast_item pf) days = Ok items /\
    dict_get data "alerts" (VList []) = Ok alerts /\
    record = VDict [ ("source", VStr "visual_crossing");
                     ("city", VDict [ ("name", VStr city) ]);
                     ("list", VList items);
                     ("alerts", alerts) ].
Proof.
  unfold vc_forecast_record. intros H. repeat rstep H. injection H as <-.
  eexists _, _, _, _. repeat split; eassumption.
Qed.

(** X1.  [get_10day_forecast] asks Visual Crossing first, for the ten days
    ending nine days from now.  A record from it is the result, and nothing
    else is requested, also when the record has no day at all.  Only when
    that call raises, geocoding is asked; without a place the result is
    [None] and no forecast is requested from OpenWeatherMap; with a place
    the forecast request carries its latitude and longitude and the units,
    and its outcome is the result. *)
Theorem get_10day_forecast_fallback (city units end_date : string)
    (log : list request) :
  date_after pf 9 = Ok end_date ->
  let vc_request := vc_forecast_request vc_key city units end_date in
  let log1 := (log ++ [vc_request])%list in
  let log2 := (log1 ++ [geocoding_request owm_key city])%list in
  (forall record,
     vc_forecast_result city units end_date log = Ok record ->
     truthy record = true /\
     get_10day_forecast pf vc_key owm_key city units log = (Ok record, log1)) /\
  (forall e,
     vc_forecast_result city units end_date log = Raise e ->
     (coordinates_result pf owm_key city log1 = None ->
      get_10day_forecast pf vc_key owm_key city units log = (Ok VNone, log2)) /\
     (forall lat lon,
        coordinates_result pf owm_key city log1 = Some (lat, lon) ->
        get_10day_forecast pf vc_key owm_key city units log
        = (Ok (try_except (owm_forecast_result lat lon units log2) VNone),
           (log2 ++ [owm_forecast_request owm_key lat lon units])%list))).
Proof.
  intros Hdate vc_request log1 log2.
  assert (Hvc : _get_vc_forecast pf vc_key city 10 units log
                = (Ok (try_except (vc_forecast_result city units end_date log) VNone),
                   log1)).
  { rewrite vc_forecast_run. change (10 - 1)%Z with 9%Z. now rewrite Hdate. }
  split.
  - intros record Hrec.
    assert (Htruthy : truthy record = true).
    { unfold vc_forecast_result in Hrec.
      destruct (reply_json _) as [data |]; [ | discriminate Hrec ].
      cbn [rbind] in Hrec.
      destruct (vc_forecast_record_inv _ _ Hrec)
        as (? & ? & ? & ? & _ & _ & _ & _ & ->).
      reflexivity. }
    split; [ exact Htruthy | ].
    unfold get_10day_forecast, try_io, bind. rewrite Hvc, Hrec. simpl.
    now rewrite Htruthy.
  - intros e He.
    pose proof (owm_extended_forecast_run city units log1) as Hrun.
    cbv zeta in Hrun. fold log2 in Hrun.
    split.
    + intros Hnone. unfold get_10day_forecast, try_io, bind.
      rewrite Hvc, He. simpl. rewrite Hrun, Hnone. reflexivity.
    + intros lat lon Hsome. unfold get_10day_forecast, try_io, bind.
      rewrite Hvc, He. simpl. rewrite Hrun, Hsome. reflexivity.
Qed.

End ForecastService.

(** London again: Visual Crossing answers 500 and the geocoding address
    returns an object instead of a list of places, so no place is found. *)
Lemma get_10day_forecast_fallback_witness :
  get_10day_forecast (utc_platform london_network) "vc-key" "owm-key"
    "London" "metric" []
  = (Ok VNone,
     [ vc_forecast_request "vc-key" "London" "metric" "2023-11-23";
       geocoding_request "owm-key" "London" ]).
Proof.
  pose proof (@get_10day_forecast_fallback (utc_platform london_network)
                "vc-key" "owm-key" "London" "metric" "2023-11-23" []
                ltac:(vm_compute; reflexivity)) as H.
  cbv zeta in H. destruct H as [_ H].
  destruct (H HTTPError ltac:(vm_compute; reflexivity)) as [Hnone _].
  exact (Hnone ltac:(vm_compute; reflexivity)).
Defined.

Section ForecastNormalisation.

Variable pf : platform.

(** X2.  The record [_get_vc_forecast] builds has exactly one item per day
    of the provider's document, in the same order; one day that cannot be
    converted (it has no ["datetime"], say) and no record is built at all. *)
Theorem vc_forecast_one_item_per_day (city : string) (data : value) :
  (forall record,
     vc_forecast_record pf city data = Ok record ->
     exists days_field days items,
       dict_get data "days" (VList []) = Ok days_field /\
       iterate days_field = Ok days /\
       getitem record "list" = Ok (VList items) /\
       Forall2 (fun day item => vc_forecast_item pf day = Ok item) days items /\
       List.length items = List.length days) /\
  (forall days_field days day e,
     dict_get data "days" (VList []) = Ok days_field ->
     iterate days_field = Ok days ->
     In day days ->
     vc_forecast_item pf day = Raise e ->
     exists e', vc_forecast_record pf city data = Raise e') /\
  (forall kv, assoc "datetime" kv = None ->
              vc_forecast_item pf (VDict kv) = Raise KeyError).
Proof.
  split; [ | split ].
  - intros record H.
    destruct (@vc_forecast_record_inv pf city data record H)
      as (days_field & days & items & alerts & Hd & Hi & Hm & _ & ->).
    exists days_field, days, items. repeat split; trivial.
    + now apply rmap_Forall2.
    + now apply rmap_length in Hm.
  - intros days_field days day e Hd Hi Hin He.
    unfold vc_forecast_record. rewrite Hd. cbn [rbind]. rewrite Hi. cbn [rbind].
    destruct (rmap_raise_In (vc_forecast_item pf) days day Hin He) as [e' ->].
    simpl. eauto.
  - intros kv Hnone. unfold vc_forecast_item, getitem. now rewrite Hnone.
Qed.


End ForecastNormalisation.



(** ** Alerts derived and native *)

Lemma Qle_bool_false_iff (p q : Q) : Qle_bool p q = false <-> q < p.
Proof.
  split.
  - intros Hb. apply Qnot_le_lt. intros Hle. apply Qle_bool_iff in Hle. congruence.
  - intros Hlt. destruct (Qle_bool p q) eqn:Hb; trivial.
    apply Qle_bool_iff in Hb. exfalso. revert Hb. now apply Qlt_not_le.
Qed.

(** The list the two checks of [_get_owm_alerts] leave behind. *)
Lemma two_checks (storm : bool) (speed : Q) (t w : value) :
  t <> w ->
  let alerts :=
    if Qle_bool speed 15 then (if storm then [t] else [])
    else ((if storm then [t] else []) ++ [w])%list in
  alerts = ((if storm then [t] else [])
            ++ (if Qle_bool speed 15 then [] else [w]))%list /\
  (In w alerts <-> 15 < speed) /\
  (List.length alerts <= 2)%nat /\
  (forall a, In a alerts -> a = t \/ a = w).
Proof.
  intros Hneq alerts. unfold alerts.
  rewrite <- Qle_bool_false_iff.
  destruct storm, (Qle_bool speed 15); simpl;
    (split; [ reflexivity | ]);
    (split; [ | split; [ lia | intros a Ha; intuition (subst; auto) ] ]);
    (split; intros H; try reflexivity; try discriminate H; try tauto; auto).
Qed.

Section AlertDerivation.

Variable pf : platform.

(** X4.  What [_get_owm_alerts] derives from a current-weather document.
    Without a ["weather"] entry that counts as true there is no alert,
    whatever the wind.  Otherwise there is a thunderstorm warning exactly
    when the lower-cased [weather[0].main] contains "thunderstorm" or
    "tornado" (the description is only quoted), then a wind warning exactly
    when the wind speed (0 when absent) is above 15, a speed of 15 giving
    none.  So there are at most two alerts, each tagged "OpenWeatherMap
    Analysis", with severity "Severe" and "Moderate". *)
Theorem owm_derived_alerts_spec (data : value) (alerts : list value) :
  owm_derived_alerts pf data = Ok alerts ->
  exists weather,
    dict_get data "weather" VNone = Ok weather /\
    (truthy weather = false -> alerts = []) /\
    (truthy weather = true ->
     exists main description wind_speed speed,
       (w <- getitem0 weather ;; m <- getitem w "main" ;; as_str m)%res = Ok main /\
       (w <- getitem0 weather ;; getitem w "description")%res = Ok description /\
       (w <- dict_get data "wind" (VDict []) ;; dict_get w "speed" (VNum 0))%res
       = Ok wind_speed /\
       as_num wind_speed = Ok speed /\
       alerts
       = ((if str_in "thunderstorm" (lower main) || str_in "tornado" (lower main)
           then [thunderstorm_alert pf description] else [])
          ++ (if Qle_bool speed 15 then [] else [wind_alert pf wind_speed]))%list /\
       (In (wind_alert pf wind_speed) alerts <-> 15 < speed)) /\
    (List.length alerts <= 2)%nat /\
    (forall a, In a alerts ->
       getitem a "source" = Ok (VStr "OpenWeatherMap Analysis") /\
       (getitem a "severity" = Ok (VStr "Severe")
        \/ getitem a "severity" = Ok (VStr "Moderate"))).
Proof.
  unfold owm_derived_alerts. intros H.
  destruct (dict_get data "weather" VNone) as [weather |] eqn:Ew;
    cbn [rbind] in H; [ | discriminate H ].
  exists weather. split; [ reflexivity | ].
  destruct (truthy weather) eqn:T.
  - assert (Hw : getitem data "weather" = Ok weather).
    { destruct data; try discriminate Ew. simpl in Ew |- *.
      destruct (assoc "weather" kv); [ exact Ew | ].
      injection Ew as <-. discriminate T. }
    rewrite Hw in H. cbn [rbind] in H. repeat rstep H. injection H as <-.
    match goal with
    | Hm : as_str _ = Ok ?main, Hd : getitem _ "description" = Ok ?description,
      Hs : dict_get _ "speed" _ = Ok ?ws, Hn : as_num ?ws = Ok ?speed |- _ =>
        destruct (@two_checks
                    (str_in "thunderstorm" (lower main) || str_in "tornado" (lower main))
                    speed (thunderstorm_alert pf description) (wind_alert pf ws)
                    ltac:(discriminate))
          as (Hlist & Hwind & Hlen & Hfrom);
        split; [ discriminate | ];
        split; [ intros _; exists main, description, ws, speed | ]
    end.
    + cbn [rbind].
      repeat match goal with
      | E : ?x = Ok _ |- context [?x] => rewrite E; cbn [rbind]
      end.
      repeat (split; [ first [ reflexivity | assumption ] | ]).
      exact Hwind.
    + split; [ exact Hlen | ].
      intros alert Ha. destruct (Hfrom alert Ha) as [-> | ->];
        (split; [ reflexivity | auto ]).
  - injection H as <-.
    split; [ reflexivity | ]. split; [ discriminate | ].
    split; [ simpl; lia | intros a [] ].
Qed.

End AlertDerivation.

(** A thunderstorm with a wind of 18 m/s. *)
Definition stormy_document : value :=
  VDict [ ("weather", VList [ VDict [ ("main", VStr "Thunderstorm");
                                      ("description", VStr "heavy thunderstorm") ] ]);
          ("wind", VDict [ ("speed", VNum 18) ]) ].

(** Both warnings, the thunderstorm first. *)
Lemma owm_derived_alerts_spec_witness :
  exists alerts,
    owm_derived_alerts (utc_platform offline) stormy_document = Ok alerts /\
    map (fun a => getitem a "event") alerts
    = [ Ok (VStr "Severe Thunderstorm Warning"); Ok (VStr "High Wind Warning") ] /\
    (List.length alerts <= 2)%nat.
Proof.
  destruct (owm_derived_alerts (utc_platform offline) stormy_document)
    as [alerts |] eqn:E; [ | vm_compute in E; discriminate E ].
  destruct (owm_derived_alerts_spec _ _ E) as (weather & _ & _ & _ & Hlen & _).
  exists alerts. split; [ reflexivity | ]. split; [ | exact Hlen ].
  vm_compute in E. injection E as <-. reflexivity.
Defined.

Lemma Forall2_In_l {A B} (R : A -> B -> Prop) (l : list A) (ys : list B) (x : A) :
  Forall2 R l ys -> In x l -> exists y, In y ys /\ R x y.
Proof.
  induction 1 as [| x' y l ys Hxy HF IH]; simpl; [ intros [] | ].
  intros [<- | Hx].
  - exists y. auto.
  - destruct (IH Hx) as (y' & Hy' & HR). exists y'. auto.
Qed.

Section AlertFormatting.

Variable pf : platform.

(** The alert [_get_vc_alerts] builds from one alert of the provider. *)
Definition vc_alert_of (kv : list (string * value)) : value :=
  VDict [ ("event", field_or kv "event" (VStr "Weather Alert"));
          ("description", field_or kv "description" (VStr "Weather alert in effect"));
          ("severity", field_or kv "severity" (VStr "Unknown"));
          ("start", field_or kv "onset" (VStr (now_isoformat pf)));
          ("end", field_or kv "expires" (VStr ""));
          ("source", VStr "Visual Crossing") ].

Lemma vc_alert_inv (p a : value) :
  vc_alert pf p = Ok a <-> exists kv, p = VDict kv /\ a = vc_alert_of kv.
Proof.
  split.
  - destruct p; try discriminate. unfold vc_alert. cbn [dict_get rbind].
    intros H. injection H as <-. eauto.
  - intros (kv & -> & ->). reflexivity.
Qed.

Lemma owm_derived_alerts_members (data : value) (alerts : list value) :
  owm_derived_alerts pf data = Ok alerts ->
  forall a, In a alerts ->
    (exists description, a = thunderstorm_alert pf description)
    \/ (exists wind_speed, a = wind_alert pf wind_speed).
Proof.
  unfold owm_derived_alerts. intros H.
  destruct (dict_get data "weather" VNone) as [weather |];
    cbn [rbind] in H; [ | discriminate H ].
  destruct (truthy weather).
  - repeat rstep H. injection H as <-. intros alert Ha.
    repeat match type of Ha with
    | In _ (if ?c then _ else _) => destruct c
    | In _ (_ ++ _)%list => apply in_app_or in Ha as [Ha | Ha]
    end; simpl in Ha; intuition eauto.
  - injection H as <-. intros a [].
Qed.

(** X5.  The native alerts of Visual Crossing: one alert per alert of the
    provider, in the same order, with the provider's event, description,
    severity, onset and expiry (or "Weather Alert", "Weather alert in
    effect", "Unknown", the present time and the empty string) and the tag
    "Visual Crossing".  One alert of the provider that is not a JSON object
    and none is returned. *)
Theorem vc_native_alerts_spec (data : value) :
  (forall alerts,
     vc_native_alerts pf data = Ok alerts ->
     exists field provider_alerts,
       dict_get data "alerts" (VList []) = Ok field /\
       iterate field = Ok provider_alerts /\
       Forall2 (fun p a => exists kv, p = VDict kv /\ a = vc_alert_of kv)
               provider_alerts alerts /\
       List.length alerts = List.length provider_alerts) /\
  (forall field provider_alerts p,
     dict_get data "alerts" (VList []) = Ok field ->
     iterate field = Ok provider_alerts ->
     In p provider_alerts ->
     (forall kv, p <> VDict kv) ->
     exists e, vc_native_alerts pf data = Raise e).
Proof.
  split.
  - unfold vc_native_alerts. intros alerts H. repeat rstep H.
    eexists _, _. split; [ reflexivity | ]. split; [ eassumption | ].
    apply rmap_Forall2 in H. split.
    + revert H. apply Forall2_impl. intros p built. apply vc_alert_inv.
    + symmetry. eapply Forall2_length. exact H.
  - intros field provider_alerts p Hf Hi Hin Hnot.
    unfold vc_native_alerts. rewrite Hf. cbn [rbind]. rewrite Hi. cbn [rbind].
    apply (rmap_raise_In (vc_alert pf) provider_alerts p (e := AttributeError) Hin).
    destruct p; try reflexivity. exfalso. now apply (Hnot kv).
Qed.

Lemma alert_display_of_derived (a : value) :
  (exists description, a = thunderstorm_alert pf description)
  \/ (exists wind_speed, a = wind_alert pf wind_speed) ->
  exists d, alert_display_of a = Ok d.
Proof.
  intros [[description ->] | [wind_speed ->]]; eexists; reflexivity.
Qed.

Lemma alert_display_of_native (kv : list (string * value)) :
  (exists e, alert_display_of (vc_alert_of kv) = Raise e) <->
  exists v, assoc "severity" kv = Some v /\ forall s, v <> VStr s.
Proof.
  unfold alert_display_of, vc_alert_of. cbn [dict_get rbind assoc String.eqb
    Ascii.eqb Bool.eqb]. unfold field_or.
  destruct (assoc "severity" kv) as [v |]; cbn [as_str rbind].
  - destruct v; cbn [as_str rbind];
      try (split;
           [ intros _; eexists; split; [ reflexivity | intros s; discriminate ]
           | intros _; eexists; reflexivity ]).
    split.
    + intros [e He]. discriminate He.
    + intros (v & Hv & Hs). injection Hv as <-. exfalso. now apply (Hs s).
  - split.
    + intros [e He]. discriminate He.
    + intros (v & Hv & _). discriminate Hv.
Qed.

(** X6.  Formatting what [get_weather_alerts] collects.  The derived alerts
    of OpenWeatherMap always format.  [format_weather_alerts] has no handler,
    and it raises on the alerts of the service exactly when an alert of
    Visual Crossing carries a severity that is not a string ([null], a
    number); otherwise it gives one entry per alert. *)
Theorem format_service_alerts (data_owm data_vc field : value)
    (derived native provider_alerts : list value) :
  owm_derived_alerts pf data_owm = Ok derived ->
  vc_native_alerts pf data_vc = Ok native ->
  dict_get data_vc "alerts" (VList []) = Ok field ->
  iterate field = Ok provider_alerts ->
  ((exists e, format_weather_alerts (derived ++ native)%list = Raise e) <->
   (exists kv v, In (VDict kv) provider_alerts /\
                 assoc "severity" kv = Some v /\ forall s, v <> VStr s)) /\
  (forall formatted,
     format_weather_alerts (derived ++ native)%list = Ok formatted ->
     List.length formatted
     = (List.length derived + List.length provider_alerts)%nat).
Proof.
  intros Hd Hn Hf Hi.
  assert (HF : Forall2 (fun p a => exists kv, p = VDict kv /\ a = vc_alert_of kv)
                       provider_alerts native).
  { unfold vc_native_alerts in Hn. rewrite Hf in Hn. cbn [rbind] in Hn.
    rewrite Hi in Hn. cbn [rbind] in Hn. apply rmap_Forall2 in Hn.
    revert Hn. apply Forall2_impl. intros p a. apply vc_alert_inv. }
  unfold format_weather_alerts. split; [ split | ].
  - intros [e He]. apply rmap_raise_inv in He as (a & Ha & He).
    apply in_app_or in Ha as [Ha | Ha].
    + destruct (alert_display_of_derived (owm_derived_alerts_members _ Hd a Ha))
        as [d Hok]. congruence.
    + destruct (@Forall2_In_r _ _ _ _ _ a HF Ha) as (p & Hp & kv & -> & ->).
      destruct (proj1 (alert_display_of_native kv) (ex_intro _ e He))
        as (v & Hv & Hs).
      exists kv, v. auto.
  - intros (kv & v & Hin & Hv & Hs).
    destruct (@Forall2_In_l _ _ _ _ _ (VDict kv) HF Hin) as (a & Ha & kv' & E & ->).
    injection E as <-.
    destruct (proj2 (alert_display_of_native kv) (ex_intro _ v (conj Hv Hs)))
      as [e He].
    apply (rmap_raise_In alert_display_of _ (vc_alert_of kv) (e := e)); trivial.
    apply in_or_app. now right.
  - intros formatted H. apply rmap_length in H.
    rewrite H, length_app. f_equal. symmetry. eapply Forall2_length. exact HF.
Qed.

End AlertFormatting.

(** A flood watch whose severity is [null]. *)
Definition null_severity_document : value :=
  VDict [ ("alerts",
           VList [ VDict [ ("event", VStr "Flood Watch");
                           ("severity", VNone) ] ]) ].

(** The two derived warnings format, the flood watch does not. *)
Lemma format_service_alerts_witness :
  exists derived native e,
    owm_derived_alerts (utc_platform offline) stormy_document = Ok derived /\
    vc_native_alerts (utc_platform offline) null_severity_document = Ok native /\
    format_weather_alerts (derived ++ native)%list = Raise e.
Proof.
  destruct (owm_derived_alerts (utc_platform offline) stormy_document)
    as [derived |] eqn:Ed; [ | vm_compute in Ed; discriminate Ed ].
  destruct (vc_native_alerts (utc_platform offline) null_severity_document)
    as [native |] eqn:En; [ | vm_compute in En; discriminate En ].
  destruct (@format_service_alerts (utc_platform offline) stormy_document
              null_severity_document _ derived native _ Ed En eq_refl eq_refl)
    as [[_ Hraise] _].
  destruct Hraise as [e He].
  { exists [ ("event", VStr "Flood Watch"); ("severity", VNone) ], VNone.
    split; [ left; reflexivity | ]. split; [ reflexivity | discriminate ]. }
  exists derived, native, e. auto.
Defined.

(** ** The day count of [format_forecast_data] *)

Section DayCount.

Variable pf : platform.

Lemma format_forecast_data_length_le (forecast_data : value) (days : Z) :
  (0 <= days)%Z ->
  (List.length (format_forecast_data pf forecast_data days) <= Z.to_nat days)%nat.
Proof.
  intros Hdays. unfold format_forecast_data.
  destruct (negb (truthy forecast_data)); [ simpl; lia | ].
  unfold forecast_display_of.
  destruct (dict_get forecast_data "list" (VList [])) as [forecast_list |];
    cbn [rbind]; [ | simpl; lia ].
  destruct (dict_get forecast_data "source" VNone) as [src |];
    cbn [rbind]; [ | simpl; lia ].
  destruct (hash_eq src (VStr "visual_crossing")).
  - destruct (iterate_slice_to days forecast_list) as [items |] eqn:Eit;
      cbn [rbind]; [ | simpl; lia ].
    destruct (rmap (vc_day_display pf) items) as [r |] eqn:Er;
      simpl try_except; [ | simpl; lia ].
    rewrite (rmap_length _ _ Er).
    destruct forecast_list; try discriminate Eit; injection Eit as <-;
      now apply list_slice_to_length.
  - destruct (iterate forecast_list) as [items |]; cbn [rbind]; [ | simpl; lia ].
    destruct (group_by_date pf items []) as [daily |]; cbn [rbind]; [ | simpl; lia ].
    destruct (day_loop pf days (list_slice_to days daily) []) as [r |] eqn:Er;
      simpl try_except; [ | simpl; lia ].
    destruct (@day_loop_spec pf _ _ _ _ Er) as [Hlen _].
    pose proof (@list_slice_to_length _ days daily Hdays) as Hs.
    simpl in Hlen. lia.
Qed.

(** X7.  [format_forecast_data] and its day count.  A count that is not
    negative bounds the number of entries.  With a count of zero or less,
    data that are grouped by date give no entry (the loop stops at once),
    while Visual Crossing data with a negative count are cut Python's way:
    the last [-days] items are left out and the others are formatted. *)
Theorem format_forecast_data_day_count (forecast_data : value) (days : Z) :
  ((0 <= days)%Z ->
   (List.length (format_forecast_data pf forecast_data days) <= Z.to_nat days)%nat) /\
  (forall source,
     (days <= 0)%Z ->
     dict_get forecast_data "source" VNone = Ok source ->
     hash_eq source (VStr "visual_crossing") = false ->
     format_forecast_data pf forecast_data days = []) /\
  (forall source items,
     (days < 0)%Z ->
     dict_get forecast_data "source" VNone = Ok source ->
     hash_eq source (VStr "visual_crossing") = true ->
     dict_get forecast_data "list" (VList []) = Ok (VList items) ->
     format_forecast_data pf forecast_data days
     = try_except
         (rmap (vc_day_display pf)
               (firstn (List.length items - Z.to_nat (- days)) items))
         []).
Proof.
  split; [ apply format_forecast_data_length_le | ]. split.
  - intros source Hdays Hsrc Hnot. unfold format_forecast_data.
    destruct (negb (truthy forecast_data)); [ reflexivity | ].
    unfold forecast_display_of.
    destruct (dict_get forecast_data "list" (VList [])) as [forecast_list |];
      cbn [rbind]; [ | reflexivity ].
    rewrite Hsrc. cbn [rbind]. rewrite Hnot.
    destruct (iterate forecast_list) as [items |]; cbn [rbind]; [ | reflexivity ].
    destruct (group_by_date pf items []) as [daily |]; cbn [rbind]; [ | reflexivity ].
    destruct (list_slice_to days daily) as [| [date day_items] rest]; simpl;
      [ reflexivity | ].
    replace (days <=? 0)%Z with true by (symmetry; now apply Z.leb_le).
    reflexivity.
  - intros source items Hdays Hsrc Hvc Hlist. unfold format_forecast_data.
    assert (T : truthy forecast_data = true).
    { destruct forecast_data; try discriminate Hlist.
      destruct kv; [ discriminate Hsrc || (simpl in Hsrc; injection Hsrc as <-;
                                           discriminate Hvc) | reflexivity ]. }
    rewrite T. cbn [negb]. unfold forecast_display_of.
    rewrite Hlist, Hsrc. cbn [rbind]. rewrite Hvc.
    cbn [iterate_slice_to rbind]. unfold list_slice_to.
    replace (0 <=? days)%Z with false by (symmetry; apply Z.leb_gt; lia).
    reflexivity.
Qed.

End DayCount.

(** Three days of Visual Crossing. *)
Definition vc_day (date : string) (tempmin tempmax : Q) : value :=
  VDict [ ("datetime", VStr date); ("temp", VNum ((tempmin + tempmax) / 2));
          ("tempmin", VNum tempmin); ("tempmax", VNum tempmax);
          ("humidity", VNum 75); ("pressure", VNum 30);
          ("conditions", VStr "Overcast"); ("icon", VStr "cloudy");
          ("windspeed", VNum 10); ("precipprob", VNum 10) ].

Definition three_days_document : value :=
  VDict [ ("days", VList [ vc_day "2023-11-23" 5 10; vc_day "2023-11-24" 4 9;
                           vc_day "2023-11-25" 6 11 ]) ].

(** A day count of -1 on three days of Visual Crossing: the first two. *)
Lemma format_forecast_data_day_count_witness :
  exists record,
    vc_forecast_record (utc_platform offline) "London" three_days_document
    = Ok record /\
    map fd_date (format_forecast_data (utc_platform offline) record (-1))
    = [ "2023-11-23"; "2023-11-24" ].
Proof.
  destruct (vc_forecast_record (utc_platform offline) "London" three_days_document)
    as [record |] eqn:E; [ | vm_compute in E; discriminate E ].
  exists record. split; [ reflexivity | ].
  vm_compute in E. injection E as <-.
  match goal with
  | |- context [format_forecast_data ?p ?r ?n] =>
      rewrite (proj2 (proj2 (format_forecast_data_day_count p r n))
                 (VStr "visual_crossing") _ ltac:(lia) eq_refl eq_refl eq_refl)
  end.
  vm_compute. reflexivity.
Defined.

(** ** The worker threads of the application *)

(** What [_get_weather_thread] hands to the window: the formatted record, or
    one of its three error dialogs. *)
Inductive weather_view : Type :=
| WeatherShown (formatted_data : current_display)
| WeatherDataError
| WeatherApiError
| WeatherUnexpectedError.

(** What [_get_forecast_thread] hands to the window. *)
Inductive forecast_view : Type :=
| ForecastShown (formatted_forecasts : list forecast_display)
| ForecastDataError
| ForecastApiError
| ForecastUnexpectedError.

Section Application.

Variable pf : platform.
Variables vc_key owm_key : string.

(** [units] is the value of the units selector when the thread starts. *)
Definition _get_weather_thread (city units : string) : io weather_view :=
  try_io
    (weather_data <- get_current_weather pf vc_key owm_key city units ;;
     if truthy weather_data then
       match format_current_weather pf weather_data with
       | Some formatted_data => ret (WeatherShown formatted_data)
       | None => ret WeatherDataError
       end
     else ret WeatherApiError)%io
    WeatherUnexpectedError.

Definition _get_forecast_thread (city units : string) : io forecast_view :=
  try_io
    (forecast_data <- get_10day_forecast pf vc_key owm_key city units ;;
     if truthy forecast_data then
       let formatted_forecasts := format_forecast_data pf forecast_data 10 in
       match formatted_forecasts with
       | _ :: _ => ret (ForecastShown formatted_forecasts)
       | [] => ret ForecastDataError
       end
     else ret ForecastApiError)%io
    ForecastUnexpectedError.

Lemma setitem_truthy (data v r : value) (k : string) :
  setitem data k v = Ok r -> truthy r = true.
Proof.
  destruct data; try discriminate. simpl. intros H. injection H as <-.
  destruct kv as [| [k' v'] kv]; simpl; [ reflexivity | ].
  destruct (String.eqb k k'); reflexivity.
Qed.

Lemma current_display_source (weather_data : value) (d : current_display) :
  current_display_of pf weather_data = Ok d ->
  dict_get weather_data "source" (VStr "unknown") = Ok (cd_source d).
Proof.
  unfold current_display_of. intros H. repeat rstep H. injection H as <-.
  reflexivity.
Qed.

(** X8.  [_get_weather_thread] never reaches its "Unexpected error" dialog:
    the service and the formatter absorb every exception.  It shows "API
    Error" exactly when both providers gave nothing, and the record it hands
    to the window names its source as "visual_crossing" or
    "openweathermap", never as "unknown". *)
Theorem weather_thread_views (city units : string) (log : list request) :
  let log1 := (log ++ [vc_current_request vc_key city units])%list in
  exists view log',
    _get_weather_thread city units log = (Ok view, log') /\
    view <> WeatherUnexpectedError /\
    (view = WeatherApiError <->
     vc_current_result pf vc_key city units log = VNone /\
     owm_current_result pf owm_key city units log1 = VNone) /\
    (forall d, view = WeatherShown d ->
       cd_source d = VStr "visual_crossing" \/ cd_source d = VStr "openweathermap").
Proof.
  intros log1. unfold _get_weather_thread, try_io, bind.
  rewrite (@get_current_weather_run pf vc_key owm_key city units log).
  cbv zeta. fold log1.
  pose proof (@vc_current_result_truthy pf vc_key city units log) as Hnone.
  destruct (truthy (vc_current_result pf vc_key city units log)) eqn:T.
  - (* the primary gave a record *)
    assert (Hsrc : dict_get (vc_current_result pf vc_key city units log) "source"
                     (VStr "unknown") = Ok (VStr "visual_crossing")).
    { revert T. unfold vc_current_result.
      destruct (reply_json _) as [data |]; simpl; [ | discriminate ].
      destruct (vc_current_record pf city data) as [v |] eqn:E; simpl;
        [ | discriminate ].
      intros _. unfold vc_current_record in E. repeat rstep E.
      injection E as <-. reflexivity. }
    rewrite T.
    destruct (format_current_weather pf (vc_current_result pf vc_key city units log))
      as [d |] eqn:F; eexists _, _; (split; [ reflexivity | ]);
      (split; [ discriminate | ]); (split; [ split; [ discriminate | ] | ]).
    + intros [H _]. apply Hnone in H. discriminate H.
    + intros d' H. injection H as <-. left.
      apply format_current_weather_inv, current_display_source in F. congruence.
    + intros [H _]. apply Hnone in H. discriminate H.
    + discriminate.
  - (* the secondary decides *)
    assert (Hvc : vc_current_result pf vc_key city units log = VNone)
      by (now apply Hnone).
    unfold owm_current_result.
    destruct (reply_json (network pf log1 (owm_current_request owm_key city units)))
      as [data |]; cbn [rbind try_except].
    + destruct (setitem data "source" (VStr "openweathermap")) as [r |] eqn:S;
        cbn [try_except].
      * rewrite (setitem_truthy _ _ _ S).
        assert (Hsrc : dict_get r "source" (VStr "unknown")
                       = Ok (VStr "openweathermap")).
        { destruct data; try discriminate S. simpl in S. injection S as <-.
          simpl. now rewrite assoc_set_same. }
        assert (Hr : r <> VNone) by (intros ->; discriminate (setitem_truthy _ _ _ S)).
        destruct (format_current_weather pf r) as [d |] eqn:F;
          eexists _, _; (split; [ reflexivity | ]);
          (split; [ discriminate | ]); (split; [ split; [ discriminate | ] | ]).
        -- intros [_ H]. contradiction.
        -- intros d' H. injection H as <-. right.
           apply format_current_weather_inv, current_display_source in F. congruence.
        -- intros [_ H]. contradiction.
        -- discriminate.
      * simpl. eexists _, _. split; [ reflexivity | ].
        split; [ discriminate | ]. split; [ tauto | discriminate ].
    + simpl. eexists _, _. split; [ reflexivity | ].
      split; [ discriminate | ]. split; [ tauto | discriminate ].
Qed.

End Application.

Section ApplicationForecast.

Variable pf : platform.
Variables vc_key owm_key : string.

Lemma owm_extended_forecast_outcome (city units : string) (log : list request) :
  exists v log',
    _get_owm_extended_forecast pf owm_key city units log = (Ok v, log') /\
    (v = VNone \/ truthy v = true).
Proof.
  rewrite (@owm_extended_forecast_run pf owm_key city units log). cbv zeta.
  destruct (coordinates_result pf owm_key city _) as [[lat lon] |].
  - eexists _, _. split; [ reflexivity | ].
    unfold owm_forecast_result.
    destruct (reply_json _) as [data |]; cbn [rbind try_except]; [ | now left ].
    destruct (setitem data "source" _) as [r |] eqn:S; cbn [try_except];
      [ | now left ].
    right. exact (setitem_truthy _ _ _ S).
  - eexists _, _. split; [ reflexivity | now left ].
Qed.

Lemma get_10day_forecast_outcome (city units : string) (log : list request) :
  exists v log',
    get_10day_forecast pf vc_key owm_key city units log = (Ok v, log') /\
    (v = VNone \/ truthy v = true).
Proof.
  unfold get_10day_forecast, try_io, bind.
  destruct (_get_vc_forecast pf vc_key city 10 units log) as [[v | e] log1] eqn:E.
  - destruct (truthy v) eqn:T.
    + eexists _, _. split; [ reflexivity | now right ].
    + destruct (owm_extended_forecast_outcome city units log1)
        as (v' & log' & -> & Hv').
      eexists _, _. split; [ reflexivity | exact Hv' ].
  - eexists _, _. split; [ reflexivity | now left ].
Qed.

(** X9.  [_get_forecast_thread] never reaches its "Unexpected error" dialog.
    What it hands to the window has at least one and at most ten days; it
    shows "API Error" exactly when the service returned [None], and "Data
    Error" when the service returned a document from which no day could be
    formatted. *)
Theorem forecast_thread_views (city units : string) (log : list request) :
  exists view log' forecast_data,
    get_10day_forecast pf vc_key owm_key city units log = (Ok forecast_data, log') /\
    _get_forecast_thread pf vc_key owm_key city units log = (Ok view, log') /\
    view <> ForecastUnexpectedError /\
    (forall l, view = ForecastShown l ->
       l = format_forecast_data pf forecast_data 10 /\
       (1 <= List.length l <= 10)%nat) /\
    (view = ForecastApiError <-> forecast_data = VNone) /\
    (view = ForecastDataError <->
     forecast_data <> VNone /\ format_forecast_data pf forecast_data 10 = []).
Proof.
  destruct (get_10day_forecast_outcome city units log) as (v & log' & Hrun & Hv).
  unfold _get_forecast_thread, try_io, bind. rewrite Hrun.
  pose proof (@format_forecast_data_length_le pf v 10 ltac:(lia)) as Hlen.
  destruct Hv as [-> | T].
  - simpl. exists ForecastApiError, log', VNone.
    repeat (split; try discriminate; try tauto).
  - rewrite T.
    assert (Hne : v <> VNone) by (intros ->; discriminate T).
    destruct (format_forecast_data pf v 10) as [| entry rest] eqn:F.
    + exists ForecastDataError, log', v. rewrite ?F.
      repeat (split; try discriminate; try tauto).
    + exists (ForecastShown (entry :: rest)), log', v. rewrite ?F.
      split; [ reflexivity | ]. split; [ reflexivity | ].
      split; [ discriminate | ]. split; [ | split; split; try discriminate ].
      * intros l H. injection H as <-. split; [ reflexivity | ].
        simpl in Hlen |- *. lia.
      * intros H. exfalso. now apply Hne.
      * intros [_ H]. discriminate H.
Qed.

End ApplicationForecast.

(** ** City search and key validation *)

Definition is_not_none (v : value) : bool :=
  match v with
  | VNone => false
  | _ => true
  end.

Section SearchAndValidation.

Variable pf : platform.
Variables visual_crossing_key openweather_key : string.

Definition search_request (query : string) : request :=
  {| url := owm_geocoding_url ++ "/direct";
     params := [ ("q", VStr query);
                 ("limit", VNum 5);
                 ("appid", VStr openweather_key) ];
     timeout := 10 |}.

(** The dictionary [search_cities] appends for one location. *)
Definition city_candidate (location : value) : res value :=
  (name <- dict_get location "name" (VStr "") ;;
   country <- dict_get location "country" (VStr "") ;;
   state <- dict_get location "state" (VStr "") ;;
   lat <- dict_get location "lat" VNone ;;
   lon <- dict_get location "lon" VNone ;;
   Ok (VDict [ ("name", name); ("country", country); ("state", state);
               ("lat", lat); ("lon", lon) ]))%res.

Definition search_results (data : value) : res (list value) :=
  (locations <- iterate data ;; rmap city_candidate locations)%res.

Definition search_cities (query : string) : io (list value) :=
  try_io
    (data <- fetch_json pf (search_request query) ;;
     lift (search_results data))%io
    [].

(** [results] is filled in this order; a bare [except] guards each test. *)
Definition validate_api_keys : io (list (string * bool)) :=
  (vc <- try_io
           (result <- _get_vc_current_weather pf visual_crossing_key
                        "London" "metric" ;;
            ret (is_not_none result))
           false ;;
   owm <- try_io
            (result <- _get_owm_current_weather pf openweather_key
                         "London" "metric" ;;
             ret (is_not_none result))
            false ;;
   ret [ ("visual_crossing", vc); ("openweathermap", owm) ])%io.

(** The candidate built from a location that is a JSON object. *)
Definition candidate_of (kv : list (string * value)) : value :=
  VDict [ ("name", field_or kv "name" (VStr ""));
          ("country", field_or kv "country" (VStr ""));
          ("state", field_or kv "state" (VStr ""));
          ("lat", field_or kv "lat" VNone);
          ("lon", field_or kv "lon" VNone) ].

Lemma city_candidate_inv (location c : value) :
  city_candidate location = Ok c <->
  exists kv, location = VDict kv /\ c = candidate_of kv.
Proof.
  split.
  - destruct location; try discriminate. unfold city_candidate.
    cbn [dict_get rbind]. intros H. injection H as <-. eauto.
  - intros (kv & -> & ->). reflexivity.
Qed.

(** X10.  [search_cities] issues one geocoding request, with limit 5, and
    always ends with a list.  When the answer is a JSON list of objects the
    result has one candidate per object, in the same order and however many
    there are (nothing is cut to five here), each with the five keys, an
    absent name, country or state being the empty string and an absent
    latitude or longitude [None].  An answer with an entry that is not an
    object, and any failure of the request, give the empty list. *)
Theorem search_cities_spec (query : string) (log : list request) :
  let reply := reply_json (network pf log (search_request query)) in
  exists cities,
    search_cities query log = (Ok cities, (log ++ [search_request query])%list) /\
    (forall kvs, reply = Ok (VList (map VDict kvs)) ->
                 cities = map candidate_of kvs) /\
    (forall data locations location,
       reply = Ok data -> iterate data = Ok locations ->
       In location locations -> (forall kv, location <> VDict kv) ->
       cities = []) /\
    (forall e, reply = Raise e -> cities = []).
Proof.
  intros reply. unfold search_cities. rewrite guarded_call_run. fold reply.
  eexists. split; [ reflexivity | ].
  split; [ | split ].
  - intros kvs ->. cbn [rbind]. unfold search_results. cbn [iterate rbind].
    assert (E : rmap city_candidate (map VDict kvs) = Ok (map candidate_of kvs)).
    { induction kvs as [| kv kvs IH]; [ reflexivity | ].
      simpl map. simpl rmap. fold (map VDict kvs). now rewrite IH. }
    now rewrite E.
  - intros data locations location -> Hi Hin Hnot. cbn [rbind].
    unfold search_results. rewrite Hi. cbn [rbind].
    destruct (rmap_raise_In city_candidate locations location
                (e := AttributeError) Hin) as [e' ->]; [ | reflexivity ].
    destruct location; try reflexivity. exfalso. now apply (Hnot kv).
  - intros e ->. reflexivity.
Qed.

(** X11.  [validate_api_keys] asks each provider once for London, metric,
    Visual Crossing first, and always returns both entries in that order.
    The entry of Visual Crossing is true exactly when its call gave a
    record; the entry of OpenWeatherMap is true exactly when the answer was
    a JSON object with a success status. *)
Theorem validate_api_keys_spec (log : list request) :
  let vc_request := vc_current_request visual_crossing_key "London" "metric" in
  let owm_request := owm_current_request openweather_key "London" "metric" in
  let log1 := (log ++ [vc_request])%list in
  exists vc owm,
    validate_api_keys log
    = (Ok [ ("visual_crossing", vc); ("openweathermap", owm) ],
       (log1 ++ [owm_request])%list) /\
    (vc = true <->
     exists record,
       (data <- reply_json (network pf log vc_request) ;;
        vc_current_record pf "London" data)%res = Ok record) /\
    (owm = true <->
     exists kv, reply_json (network pf log1 owm_request) = Ok (VDict kv)).
Proof.
  intros vc_request owm_request log1.
  unfold validate_api_keys, bind, try_io, ret.
  rewrite (@vc_current_run pf visual_crossing_key "London" "metric" log).
  fold vc_request log1.
  rewrite (@owm_current_run pf openweather_key "London" "metric" log1).
  fold owm_request.
  eexists _, _. split; [ reflexivity | ]. split.
  - pose proof (@vc_current_result_none pf visual_crossing_key "London" "metric" log)
      as Hnone. fold vc_request in Hnone.
    destruct (vc_current_result pf visual_crossing_key "London" "metric" log) eqn:E;
      simpl; split; try discriminate; try (intros _; reflexivity);
      try (intros _;
           destruct (data <- reply_json (network pf log vc_request) ;;
                     vc_current_record pf "London" data)%res as [r |] eqn:R;
           [ eauto | exfalso;
                     assert (Hx : VNone = VNone) by reflexivity;
                     unfold vc_current_result in E; fold vc_request in E;
                     rewrite R in E; discriminate E ]).
    intros [record Hrec]. destruct (proj1 Hnone eq_refl) as [e He]. congruence.
  - unfold owm_current_result. fold owm_request.
    destruct (reply_json (network pf log1 owm_request)) as [data |];
      cbn [rbind try_except].
    + destruct data; simpl; split; try discriminate;
        try (intros [kv' H]; discriminate H); eauto.
    + simpl. split; [ discriminate | intros [kv H]; discriminate H ].
Qed.

End SearchAndValidation.

(** ** One entry per calendar date *)

Lemma NoDup_prefix {A} (n : nat) (l : list A) : NoDup l -> NoDup (firstn n l).
Proof.
  revert n. induction l as [| x l IH]; intros [| n] H; simpl; try constructor.
  - inversion H as [| ? ? Hnotin Hrest]; subst.
    intros Hin. apply Hnotin.
    rewrite <- (firstn_skipn n l). apply in_or_app. now left.
  - inversion H; subst. now apply IH.
Qed.

Lemma firstn_firstn_prefix {A} (n m : nat) (l : list A) :
  exists k, firstn n (firstn m l) = firstn k l.
Proof.
  exists (Nat.min n m). apply firstn_firstn.
Qed.

Section EntriesAndDates.

Variable pf : platform.

Lemma aggregate_day_date (date : string) (day_items : list value)
    (d : forecast_display) :
  aggregate_day pf date day_items = Ok d -> fd_date d = date.
Proof.
  unfold aggregate_day. intros H. repeat rstep H. injection H as <-. reflexivity.
Qed.

(** The dates of the entries [day_loop] adds are the first keys of the
    groups, in their order. *)
Lemma day_loop_dates (days : Z) (groups : list (string * list value))
    (acc r : list forecast_display) :
  day_loop pf days groups acc = Ok r ->
  exists n, map fd_date r = (map fd_date acc ++ firstn n (map fst groups))%list.
Proof.
  revert acc. induction groups as [| [date day_items] groups IH]; intros acc; simpl.
  - intros H. injection H as <-. exists 0%nat. now rewrite app_nil_r.
  - destruct (days <=? Z.of_nat (List.length acc))%Z.
    + intros H. injection H as <-. exists 0%nat. now rewrite app_nil_r.
    + destruct (aggregate_day pf date day_items) as [entry |] eqn:E; simpl;
        [ | discriminate ].
      intros H. destruct (IH _ H) as [n Hn]. exists (S n).
      rewrite Hn, map_app, <- app_assoc. simpl.
      now rewrite (aggregate_day_date _ _ E).
Qed.

(** X12.  A forecast built by grouping (data that are not Visual Crossing's)
    has one entry per calendar date: no date occurs twice, the dates come in
    the order in which they first occur in the list, and the entry of a date
    is the aggregate of all the items of that date, in their order. *)
Theorem grouped_forecast_one_entry_per_date (forecast_data source : value)
    (items : list value) (days : Z) :
  dict_get forecast_data "list" (VList []) = Ok (VList items) ->
  dict_get forecast_data "source" VNone = Ok source ->
  hash_eq source (VStr "visual_crossing") = false ->
  let forecasts := format_forecast_data pf forecast_data days in
  NoDup (map fd_date forecasts) /\
  (forall daily_data,
     group_by_date pf items [] = Ok daily_data ->
     exists n, map fd_date forecasts = firstn n (map fst daily_data)) /\
  (forall d, In d forecasts ->
     aggregate_day pf (fd_date d) (filter (on_date pf (fd_date d)) items) = Ok d).
Proof.
  intros Hlist Hsrc Hnot forecasts.
  assert (Hgroups : forall d, In d forecasts ->
            aggregate_day pf (fd_date d) (filter (on_date pf (fd_date d)) items) = Ok d).
  { intros d Hd.
    destruct (@format_forecast_data_groups pf forecast_data source items days d
                Hlist Hsrc Hnot Hd) as (date & Ha & <-).
    exact Ha. }
  split; [ | split; [ | exact Hgroups ] ];
    unfold forecasts, format_forecast_data;
    (destruct (negb (truthy forecast_data));
       [ try constructor; intros; exists 0%nat; reflexivity | ]);
    unfold forecast_display_of; rewrite Hlist, Hsrc; cbn [rbind];
    rewrite Hnot; cbn [iterate rbind];
    (destruct (group_by_date pf items []) as [daily |] eqn:Eg; cbn [rbind];
       [ | try constructor; intros; exists 0%nat; reflexivity ]);
    (destruct (day_loop pf days (list_slice_to days daily) []) as [r |] eqn:Er;
       simpl try_except;
       [ | try constructor; intros; exists 0%nat; reflexivity ]);
    destruct (@day_loop_dates _ _ _ _ Er) as [n Hn]; simpl in Hn;
    destruct (@group_by_date_spec pf _ _ _ Eg (NoDup_nil _)) as [Hnd _].
  - rewrite Hn. apply NoDup_prefix.
    unfold list_slice_to. destruct (0 <=? days)%Z;
      rewrite <- firstn_map; now apply NoDup_prefix.
  - intros daily_data H. injection H as <-. rewrite Hn.
    unfold list_slice_to. destruct (0 <=? days)%Z;
      rewrite <- firstn_map; apply firstn_firstn_prefix.
Qed.

(** X13.  In the entry of a day every sample lies between the extremes: its
    temperature is a number, and rounded it is at least [min_temp] and at
    most [max_temp]. *)
Theorem aggregate_day_temperature_range (date : string) (day_items : list value)
    (d : forecast_display) :
  aggregate_day pf date day_items = Ok d ->
  forall item, In item day_items ->
    exists temp,
      main_field "temp" item = Ok temp /\
      (fd_min_temp d <= py_round temp <= fd_max_temp d)%Z.
Proof.
  unfold aggregate_day. intros H. repeat rstep H. injection H as <-. simpl.
  intros item Hin.
  match goal with
  | Ht : rmap (main_field "temp") day_items = Ok ?temps,
    Hlo : py_min ?temps = Ok ?lo, Hhi : py_max ?temps = Ok ?hi |- _ =>
      apply rmap_Forall2 in Ht;
      destruct (@Forall2_In_l _ _ _ _ _ item Ht Hin) as (temp & Hmem & Htemp);
      exists temp; split; [ exact Htemp | ];
      destruct temps as [| x rest]; [ destruct Hmem | ];
      simpl in Hlo, Hhi; injection Hlo as <-; injection Hhi as <-;
      split; apply py_round_mono;
      [ apply (proj2 (min_loop_spec rest x)) | apply (proj2 (maxq_loop_spec rest x)) ];
      exact Hmem
  end.
Qed.

End EntriesAndDates.

(** The samples of 2023-11-15 and one of the next morning. *)
Definition two_dates : list value :=
  (november_15 ++ [ sample 1700092800 8 "mist" 85 (21 # 10) 1016 0 ])%list.

Lemma grouped_forecast_one_entry_per_date_witness :
  NoDup (map fd_date (format_forecast_data (utc_platform offline)
                        (owm_forecast two_dates) 10)) /\
  map fd_date (format_forecast_data (utc_platform offline)
                 (owm_forecast two_dates) 10)
  = [ "2023-11-15"; "2023-11-16" ].
Proof.
  pose proof (@grouped_forecast_one_entry_per_date (utc_platform offline)
                (owm_forecast two_dates) (VStr "openweathermap") two_dates 10
                eq_refl eq_refl eq_refl) as H.
  cbv zeta in H. destruct H as [Hnd _].
  split; [ exact Hnd | vm_compute; reflexivity ].
Defined.

Lemma aggregate_day_temperature_range_witness :
  exists d,
    aggregate_day (utc_platform offline) "2023-11-15" november_15 = Ok d /\
    fd_min_temp d = 9%Z /\ fd_max_temp d = 16%Z /\
    Forall (fun item =>
              exists temp,
                main_field "temp" item = Ok temp /\
                (fd_min_temp d <= py_round temp <= fd_max_temp d)%Z)
           november_15.
Proof.
  destruct (aggregate_day (utc_platform offline) "2023-11-15" november_15)
    as [d |] eqn:E; [ | vm_compute in E; discriminate E ].
  exists d. split; [ reflexivity | ].
  pose proof (@aggregate_day_temperature_range _ _ _ _ E) as Hrange.
  vm_compute in E. injection E as <-.
  split; [ reflexivity | ]. split; [ reflexivity | ].
  apply Forall_forall. exact Hrange.
Defined.

(** ** A Visual Crossing reading on its way to the window *)

Section ReadingThroughFormatter.

Variable pf : platform.



End ReadingThroughFormatter.


(** ** Name and country out of the resolved address *)

Lemma prefix_one (c a : ascii) (rest : string) :
  String.prefix (String c EmptyString) (String a rest) = Ascii.eqb a c.
Proof.
  simpl. destruct (ascii_dec c a) as [-> | Hne].
  - rewrite Ascii.eqb_refl. now destruct rest.
  - symmetry. apply Ascii.eqb_neq. congruence.
Qed.

Lemma split_on_nonempty (c : ascii) (s : string) : split_on c s <> [].
Proof.
  destruct s as [| a rest]; simpl; [ discriminate | ].
  destruct (Ascii.eqb a c); [ discriminate | ].
  destruct (split_on c rest); discriminate.
Qed.

(** Cutting at a separator and joining with it gives the string back. *)
Lemma split_on_concat (c : ascii) (s : string) :
  String.concat (String c EmptyString) (split_on c s) = s.
Proof.
  induction s as [| a rest IH]; [ reflexivity | ].
  simpl split_on. destruct (Ascii.eqb a c) eqn:E.
  - apply Ascii.eqb_eq in E. subst a.
    pose proof (split_on_nonempty c rest) as Hne.
    destruct (split_on c rest) as [| h t]; [ contradiction | ].
    simpl in IH |- *. now rewrite IH.
  - pose proof (split_on_nonempty c rest) as Hne.
    destruct (split_on c rest) as [| h t]; [ contradiction | ].
    destruct t; simpl in IH |- *; now rewrite IH.
Qed.

Lemma split_on_head (c : ascii) (s : string) :
  str_in (String c EmptyString) (hd EmptyString (split_on c s)) = false /\
  String.prefix (hd EmptyString (split_on c s)) s = true /\
  (str_in (String c EmptyString) s = false -> split_on c s = [s]).
Proof.
  induction s as [| a rest IH]; [ simpl; auto | ].
  destruct IH as (Hno & Hpre & Hwhole).
  simpl split_on. cbn [str_in]. rewrite prefix_one.
  destruct (Ascii.eqb a c) eqn:E.
  - simpl. split; [ reflexivity | ]. split; [ reflexivity | discriminate ].
  - pose proof (split_on_nonempty c rest) as Hne.
    destruct (split_on c rest) as [| h t]; [ contradiction | ].
    simpl hd in *. cbn [str_in]. rewrite prefix_one, E. simpl orb.
    split; [ exact Hno | ]. split.
    + simpl. destruct (ascii_dec a a); [ exact Hpre | contradiction ].
    + intros H. specialize (Hwhole H). injection Hwhole as -> ->. reflexivity.
Qed.

Section NameAndCountry.

Variable pf : platform.

(** X15.  The name and country of a Visual Crossing record.  The name is
    the resolved address up to its first comma, so it contains no comma and
    the address starts with it; the country is put in the record twice, under
    ["country"] and under ["sys"], with the same value; an address without a
    comma is the name as a whole and leaves the country empty. *)
Theorem vc_record_name_and_country (city : string) (data v : value) :
  vc_current_record pf city data = Ok v ->
  exists location name country,
    (l <- dict_get data "resolvedAddress" (VStr city) ;; as_str l)%res = Ok location /\
    getitem v "name" = Ok (VStr name) /\
    getitem v "country" = Ok (VStr country) /\
    (sys <- getitem v "sys" ;; getitem sys "country")%res = Ok (VStr country) /\
    str_in "," name = false /\
    String.prefix name location = true /\
    (str_in "," location = false -> name = location /\ country = EmptyString).
Proof.
  unfold vc_current_record. intros H. repeat rstep H. injection H as <-.
  match goal with
  | Hl : as_str _ = Ok ?loc |- _ =>
      exists loc, (hd EmptyString (split_on "," loc)), (country_of loc);
      destruct (split_on_head "," loc) as (Hno & Hpre & Hwhole)
  end.
  repeat (split; [ first [ reflexivity | assumption ] | ]).
  intros Hnone. unfold country_of. rewrite Hnone, (Hwhole Hnone). auto.
Qed.

End NameAndCountry.

(** London has a comma in its address, and the part after it is the country. *)
Lemma vc_record_name_and_country_witness :
  exists v,
    vc_current_record (utc_platform offline) "London" london_vc_document = Ok v /\
    getitem v "name" = Ok (VStr "London") /\
    str_in "," "London" = false /\
    String.prefix "London" "London, England, United Kingdom" = true.
Proof.
  destruct (vc_current_record (utc_platform offline) "London" london_vc_document)
    as [v |] eqn:E1; [ | vm_compute in E1; discriminate E1 ].
  destruct (@vc_record_name_and_country _ _ _ _ E1)
    as (location & name & country & Hl & Hn & _ & _ & Hno & Hpre & _).
  pose proof E1 as E1'. vm_compute in E1'. injection E1' as <-.
  vm_compute in Hl. injection Hl as <-.
  vm_compute in Hn. injection Hn as <-.
  eexists. split; [ reflexivity | ]. split; [ vm_compute; reflexivity | ].
  split; [ exact Hno | exact Hpre ].
Defined.

(** ** The alerts tab *)

(** What [_get_alerts_thread] hands to the window: the formatted alerts with
    the number the status line announces ([None] for "No active weather
    alerts"), or its error dialog. *)
Inductive alerts_view : Type :=
| AlertsShown (formatted_alerts : list alert_display) (announced : option nat)
| AlertsError.

Section ApplicationAlerts.

Variable pf : platform.
Variables vc_key owm_key : string.

Definition _get_alerts_thread (city : string) : io alerts_view :=
  try_io
    (alerts <- get_weather_alerts pf vc_key owm_key city ;;
     formatted_alerts <- lift (format_weather_alerts alerts) ;;
     ret (AlertsShown formatted_alerts
            (if truthy (VList alerts) then Some (List.length alerts) else None)))%io
    AlertsError.

(** X16.  [_get_alerts_thread] shows its error dialog exactly when the
    formatter raises on what the service collected; the service itself never
    sends it there.  Otherwise it shows one entry per alert of the service,
    and the status line announces that number, or "No active weather alerts"
    exactly when there is none.  A city that geocoding does not resolve is
    shown as a city without alerts. *)
Theorem alerts_thread_views (city : string) (log : list request) :
  exists view log' alerts,
    get_weather_alerts pf vc_key owm_key city log = (Ok alerts, log') /\
    _get_alerts_thread city log = (Ok view, log') /\
    (view = AlertsError <-> exists e, format_weather_alerts alerts = Raise e) /\
    (forall formatted announced,
       view = AlertsShown formatted announced ->
       format_weather_alerts alerts = Ok formatted /\
       List.length formatted = List.length alerts /\
       (announced = None <-> alerts = []) /\
       (forall n, announced = Some n -> n = List.length formatted)) /\
    (coordinates_result pf owm_key city log = None ->
     view = AlertsShown [] None).
Proof.
  pose proof (@get_weather_alerts_run pf vc_key owm_key city log) as Hrun.
  cbv zeta in Hrun.
  assert (Hsvc : exists alerts log',
            get_weather_alerts pf vc_key owm_key city log = (Ok alerts, log') /\
            (coordinates_result pf owm_key city log = None -> alerts = [])).
  { destruct (coordinates_result pf owm_key city log) as [[lat lon] |].
    - eexists _, _. split; [ exact Hrun | discriminate ].
    - eexists _, _. split; [ exact Hrun | reflexivity ]. }
  clear Hrun. destruct Hsvc as (alerts & log' & Hrun & Hgeo).
  unfold _get_alerts_thread, try_io, bind. rewrite Hrun. unfold lift, ret.
  destruct (format_weather_alerts alerts) as [formatted | e] eqn:F.
  - eexists _, log', alerts. split; [ reflexivity | ]. split; [ reflexivity | ].
    split; [ split; [ discriminate | intros [e He]; congruence ] | ].
    split.
    + intros formatted' announced H. injection H as <- <-.
      pose proof (rmap_length _ _ F) as Hlen.
      split; [ exact F | ]. split; [ exact Hlen | ].
      split.
      * destruct alerts; simpl; split; congruence.
      * intros n. destruct alerts; simpl; [ discriminate | ].
        intros H. injection H as <-. now rewrite Hlen.
    + intros Hnone. specialize (Hgeo Hnone). subst alerts.
      simpl in F. injection F as <-. reflexivity.
  - eexists _, log', alerts. split; [ reflexivity | ]. split; [ reflexivity | ].
    split; [ split; [ intros _; exists e; exact F | reflexivity ] | ].
    split; [ discriminate | ].
    intros Hnone. specialize (Hgeo Hnone). subst alerts. discriminate F.
Qed.

End ApplicationAlerts.

(** ** The icon of an alert *)

(** X17.  [_get_alert_icon] does not see the case of the severity.  It
    gives the critical icon exactly when "severe" or "extreme" occurs in the
    lower-cased severity, also when "moderate" or "minor" occurs as well; the
    warning icon exactly when neither occurs and "moderate" or "minor" does;
    and the generic icon exactly when none of the four words occurs. *)
Theorem alert_icon_by_severity (severity : string) :
  let critical := str_in "severe" (lower severity) || str_in "extreme" (lower severity) in
  let warning := str_in "moderate" (lower severity) || str_in "minor" (lower severity) in
  _get_alert_icon (lower severity) = _get_alert_icon severity /\
  (_get_alert_icon severity = _get_alert_icon "severe" <-> critical = true) /\
  (_get_alert_icon severity = _get_alert_icon "minor" <->
   critical = false /\ warning = true) /\
  (_get_alert_icon severity = _get_alert_icon "" <->
   critical = false /\ warning = false).
Proof.
  intros critical warning.
  assert (Hs : _get_alert_icon "severe" <> _get_alert_icon "minor")
    by (vm_compute; discriminate).
  assert (Hm : _get_alert_icon "minor" <> _get_alert_icon "")
    by (vm_compute; discriminate).
  assert (He : _get_alert_icon "severe" <> _get_alert_icon "")
    by (vm_compute; discriminate).
  assert (Hicon : _get_alert_icon severity
                  = if critical then _get_alert_icon "severe"
                    else if warning then _get_alert_icon "minor"
                    else _get_alert_icon "")
    by (unfold _get_alert_icon at 1; fold critical warning;
        destruct critical, warning; reflexivity).
  split.
  - unfold _get_alert_icon. now rewrite lower_idem.
  - rewrite Hicon. destruct critical, warning;
      (split; [ | split ]); split; try tauto; try congruence;
      intros H; try (symmetry in H); try contradiction;
      try (destruct H; congruence).
Qed.
